(** * img-crop-c: the crop handlers of [src/App.tsx]

    A shallow embedding of the state and the event handlers of the [App]
    component: file intake ([onDrop]), opening the cropper
    ([handleOpenCropper], [handleImageLoad]), the aspect-ratio select
    ([handleAspectRatioChange], [adjustCropAreaToRatio]), the four numeric
    fields ([handleCropAreaChange]) and saving a crop ([handleCropSave]).

    Numbers.  The handlers compute on JavaScript numbers.  They are taken
    here as exact rationals ([Q]): finite, never NaN, compared with [==].
    A division by zero, which JavaScript answers with [Infinity] or [NaN],
    is outside this model: the general theorems that divide assume their
    divisor positive, as the ratios of the select and the height of a
    measured image are.  A double rounds each quotient and each product;
    the rationals do not.  The theorems therefore speak of a quotient or a
    product only as the expression the handler evaluates ([value / ratio],
    [height * ratio]) and of how it compares with other numbers, never of
    one undoing the other: [(w / r) * r] is not taken to be [w].

    React state.  Each [useState] cell is a field of [AppState]; a handler
    is a function from the state it closes over to the state after its
    setters have run.  What a handler asks of the browser (a toast, a
    download) is returned beside the state as a list of [Effect]s, and what
    the browser answers ([nanoid()], [new Date()], the canvas context, the
    blob) is an argument of the handler. *)

From Stdlib Require Import QArith Qround Lqa ZArith NArith List String Bool Lia.
Import ListNotations.
Open Scope Q_scope.

(** ** JavaScript comparisons on numbers *)

Definition num_eq (a b : Q) : bool := Qeq_bool a b.
Definition num_lt (a b : Q) : bool := negb (Qle_bool b a).
Definition num_gt (a b : Q) : bool := num_lt b a.

(** [!n] on a number: true exactly at zero. *)
Definition falsy (n : Q) : bool := Qeq_bool n 0.

(** [Math.round]: the nearest integer, halves upwards. *)
Definition Math_round (n : Q) : Q := inject_Z (Qfloor (n + (1 # 2))).

(** ** Data *)

Module Point.
Record t : Set := mk { x : Q; y : Q }.
End Point.

Module Area.
Record t : Set := mk { x : Q; y : Q; width : Q; height : Q }.

Definition with_x (a : t) (v : Q) : t := mk v (y a) (width a) (height a).
Definition with_y (a : t) (v : Q) : t := mk (x a) v (width a) (height a).
Definition with_width (a : t) (v : Q) : t := mk (x a) (y a) v (height a).
Definition with_height (a : t) (v : Q) : t := mk (x a) (y a) (width a) v.


Definition eqb (a b : t) : bool :=
  Qeq_bool (x a) (x b) && Qeq_bool (y a) (y b)
  && Qeq_bool (width a) (width b) && Qeq_bool (height a) (height b).
End Area.

(** [originalDimensions]. *)
Module Dim.
Record t : Set := mk { width : Q; height : Q }.
End Dim.

(** [keyof Area]. *)
Inductive Property : Set := PX | PY | PWidth | PHeight.

(** [CropInfo].  [dimensions] is the text [`${width} x ${height}`]; it is
    kept as the pair of numbers the template prints. *)
Module CropInfo.
Record t : Set := mk { id : string; dimensions : Q * Q; timestamp : Z }.
End CropInfo.

(** The part of a DOM [File] the handlers read. *)
Module File.
Record t : Set := mk { name : string; size : N; type : string }.
End File.

Module ImageData.
Record t : Set := mk {
  id : string;
  file : File.t;
  url : string;
  name : string;
  size : N;
  cropped : bool;
  cropHistory : list CropInfo.t;
  lastCrop : option Area.t
}.
End ImageData.

Module AspectRatios.
Definition FREE : Q := 0.
Definition ORIGINAL : Q := -1.
Definition SQUARE : Q := 1.
End AspectRatios.

Record AppState : Set := mkApp {
  images : list ImageData.t;
  currentImage : option ImageData.t;
  crop : Point.t;
  zoom : Q;
  aspectRatio : Q;
  originalDimensions : Dim.t;
  cropArea : Area.t;
  isOpen : bool
}.

(** The [useState] defaults. *)
Definition initialState : AppState :=
  {| images := [];
     currentImage := None;
     crop := Point.mk 0 0;
     zoom := 1;
     aspectRatio := AspectRatios.FREE;
     originalDimensions := Dim.mk 0 0;
     cropArea := Area.mk 0 0 0 0;
     isOpen := false |}.

(** The setters. *)
Definition setImages (s : AppState) (v : list ImageData.t) : AppState :=
  mkApp v (currentImage s) (crop s) (zoom s) (aspectRatio s)
        (originalDimensions s) (cropArea s) (isOpen s).
Definition setCurrentImage (s : AppState) (v : option ImageData.t) : AppState :=
  mkApp (images s) v (crop s) (zoom s) (aspectRatio s)
        (originalDimensions s) (cropArea s) (isOpen s).
Definition setCrop (s : AppState) (v : Point.t) : AppState :=
  mkApp (images s) (currentImage s) v (zoom s) (aspectRatio s)
        (originalDimensions s) (cropArea s) (isOpen s).
Definition setZoom (s : AppState) (v : Q) : AppState :=
  mkApp (images s) (currentImage s) (crop s) v (aspectRatio s)
        (originalDimensions s) (cropArea s) (isOpen s).
Definition setAspectRatio (s : AppState) (v : Q) : AppState :=
  mkApp (images s) (currentImage s) (crop s) (zoom s) v
        (originalDimensions s) (cropArea s) (isOpen s).
Definition setOriginalDimensions (s : AppState) (v : Dim.t) : AppState :=
  mkApp (images s) (currentImage s) (crop s) (zoom s) (aspectRatio s)
        v (cropArea s) (isOpen s).
Definition setCropArea (s : AppState) (v : Area.t) : AppState :=
  mkApp (images s) (currentImage s) (crop s) (zoom s) (aspectRatio s)
        (originalDimensions s) v (isOpen s).
Definition setIsOpen (s : AppState) (v : bool) : AppState :=
  mkApp (images s) (currentImage s) (crop s) (zoom s) (aspectRatio s)
        (originalDimensions s) (cropArea s) v.

(** What a handler asks of the browser. *)
Inductive Effect : Set :=
| Toast (title status : string)
| Download (filename : string).

(** ** Intake: [onDrop] *)

(** [files.slice(0, n)]: a negative [n] counts from the end. *)
Definition slice0 {A : Type} (l : list A) (n : Z) : list A :=
  if (0 <=? n)%Z then firstn (Z.to_nat n) l
  else firstn (List.length l - Z.to_nat (- n)) l.

(** The [images.some(...)] test of the [forEach] body. *)
Definition isDuplicate (images : list ImageData.t) (file : File.t) : bool :=
  existsb (fun img =>
             String.eqb (ImageData.name img) (File.name file)
             && N.eqb (ImageData.size img) (File.size file)) images.

(** One round of the [forEach] over [filesToAdd].  [fresh n] is what
    [nanoid()] and [URL.createObjectURL] answer for the [n]-th image this
    call creates. *)
Definition onDrop_each (images : list ImageData.t) (fresh : nat -> string * string)
    (acc : list string * list ImageData.t) (file : File.t)
    : list string * list ImageData.t :=
  let '(duplicates, newImages) := acc in
  if isDuplicate images file then (duplicates ++ [File.name file], newImages)
  else
    let '(id, url) := fresh (List.length newImages) in
    (duplicates,
     newImages ++ [ImageData.mk id file url (File.name file) (File.size file)
                                false [] None]).

Definition onDrop (fresh : nat -> string * string) (s : AppState)
    (acceptedFiles : list File.t) : AppState * list Effect :=
  let validFiles :=
    filter (fun file => String.prefix "image/" (File.type file)) acceptedFiles in
  if (List.length validFiles =? 0)%nat then (s, [Toast "Invalid files" "error"])
  else
    let maxFilesAllowed := (10 - Z.of_nat (List.length (images s)))%Z in
    let tooMany :=
      if (maxFilesAllowed <? Z.of_nat (List.length validFiles))%Z
      then [Toast "Too many files" "warning"] else [] in
    let filesToAdd := slice0 validFiles maxFilesAllowed in
    let '(duplicates, newImages) :=
      fold_left (onDrop_each (images s) fresh) filesToAdd ([], []) in
    let dupToast :=
      if (0 <? List.length duplicates)%nat
      then [Toast "Duplicate files detected" "info"] else [] in
    (setImages s (images s ++ newImages), tooMany ++ dupToast).

(** ** Opening the cropper *)

Definition handleOpenCropper (s : AppState) (image : ImageData.t) : AppState :=
  let s := setCurrentImage s (Some image) in
  let s :=
    match ImageData.lastCrop image with
    | None =>
        let s := setCrop s (Point.mk 0 0) in
        let s := setZoom s 1 in
        setCropArea s (Area.mk 0 0 0 0)
    | Some lastCrop =>
        let s := setCrop s (Point.mk (Area.x lastCrop) (Area.y lastCrop)) in
        setCropArea s lastCrop
    end in
  setIsOpen s true.

(** [onCropComplete] of the cropping surface. *)
Definition handleCropComplete (s : AppState) (croppedAreaPixels : Area.t) : AppState :=
  setCropArea s croppedAreaPixels.

(** [onLoad] of the hidden image; [naturalWidth] and [naturalHeight] are
    what the browser measured. *)
Definition handleImageLoad (s : AppState) (naturalWidth naturalHeight : Q) : AppState :=
  match currentImage s with
  | None => s
  | Some image =>
      let s := setOriginalDimensions s (Dim.mk naturalWidth naturalHeight) in
      let initialArea := Area.mk 0 0 naturalWidth naturalHeight in
      match ImageData.lastCrop image with
      | None => setCropArea s initialArea
      | Some _ => s
      end
  end.

(** ** The aspect-ratio select *)

(** The quotient [newWidth / ratio] and the product [newHeight * ratio]
    stand for the doubles the source computes at these two places. *)
Definition adjustCropAreaToRatio (s : AppState) (ratio : Q) : AppState :=
  if falsy (Dim.width (originalDimensions s)) then s
  else
    let newWidth := Area.width (cropArea s) in
    let newHeight := newWidth / ratio in
    let '(newWidth, newHeight) :=
      if num_gt newHeight (Dim.height (originalDimensions s))
      then (Dim.height (originalDimensions s) * ratio,
            Dim.height (originalDimensions s))
      else (newWidth, newHeight) in
    setCropArea s (Area.with_height (Area.with_width (cropArea s) newWidth) newHeight).

(** [value] is [parseFloat(e.target.value)]. *)
Definition handleAspectRatioChange (s : AppState) (value : Q) : AppState :=
  let s := setAspectRatio s value in
  if num_eq value AspectRatios.FREE then s
  else if num_eq value AspectRatios.ORIGINAL
          && num_gt (Dim.width (originalDimensions s)) 0 then
    let originalRatio :=
      Dim.width (originalDimensions s) / Dim.height (originalDimensions s) in
    adjustCropAreaToRatio s originalRatio
  else if num_gt value 0 then adjustCropAreaToRatio s value
  else s.

(** ** The numeric fields *)

(** [newCropArea[property] = value]. *)
Definition assign (a : Area.t) (property : Property) (value : Q) : Area.t :=
  match property with
  | PX => Area.with_x a value
  | PY => Area.with_y a value
  | PWidth => Area.with_width a value
  | PHeight => Area.with_height a value
  end.

(** The four [if]s under "Ensure crop area stays within image bounds". *)
Definition keepWithinBounds (a : Area.t) (bounds : Dim.t) : Area.t :=
  let a := if num_lt (Area.x a) 0 then Area.with_x a 0 else a in
  let a := if num_lt (Area.y a) 0 then Area.with_y a 0 else a in
  let a :=
    if num_gt (Area.x a + Area.width a) (Dim.width bounds)
    then Area.with_x a (Dim.width bounds - Area.width a) else a in
  let a :=
    if num_gt (Area.y a + Area.height a) (Dim.height bounds)
    then Area.with_y a (Dim.height bounds - Area.height a) else a in
  a.

(** The dependent dimension under a ratio: one derivation, by the field
    that was edited.  [value / ratio] and [value * ratio] stand for the
    doubles the source computes there. *)
Definition deriveOther (a : Area.t) (property : Property) (value ratio : Q) : Area.t :=
  match property with
  | PWidth => Area.with_height a (value / ratio)
  | PHeight => Area.with_width a (value * ratio)
  | _ => a
  end.

Definition handleCropAreaChange (s : AppState) (property : Property) (value : Q)
    : AppState :=
  let newCropArea := assign (cropArea s) property value in
  let newCropArea :=
    if num_gt (aspectRatio s) 0 then
      deriveOther newCropArea property value (aspectRatio s)
    else if num_eq (aspectRatio s) AspectRatios.ORIGINAL
            && num_gt (Dim.width (originalDimensions s)) 0 then
      let originalRatio :=
        Dim.width (originalDimensions s) / Dim.height (originalDimensions s) in
      deriveOther newCropArea property value originalRatio
    else newCropArea in
  let newCropArea := keepWithinBounds newCropArea (originalDimensions s) in
  let s := setCropArea s newCropArea in
  setCrop s (Point.mk (Area.x newCropArea) (Area.y newCropArea)).

(** ** Saving a crop *)

(** The object built in the [prev.map] of [handleCropSave]. *)
Definition recordCrop (cropInfo : CropInfo.t) (area : Area.t) (img : ImageData.t)
    : ImageData.t :=
  ImageData.mk (ImageData.id img) (ImageData.file img) (ImageData.url img)
               (ImageData.name img) (ImageData.size img)
               true (ImageData.cropHistory img ++ [cropInfo]) (Some area).

(** [ctx] tells whether [getContext("2d")] gave a context, [blob] whether
    [toBlob] handed a blob to its callback; [newId] is [nanoid()] and [now]
    is [new Date()].  The image drawn is the one the modal already shows;
    its [onload] is taken to fire.  Here [blob] is any answer; which answers
    the canvas of the rectangle can give is said by [handleCropSave_canvas]
    below. *)
Definition handleCropSave (s : AppState) (ctx blob : bool) (newId : string) (now : Z)
    : AppState * list Effect :=
  match currentImage s with
  | None => (s, [])
  | Some cur =>
      if ctx && blob then
        let cropInfo :=
          CropInfo.mk newId (Area.width (cropArea s), Area.height (cropArea s)) now in
        let s' :=
          setImages s
            (map (fun img =>
                    if String.eqb (ImageData.id img) (ImageData.id cur)
                    then recordCrop cropInfo (cropArea s) img else img)
                 (images s)) in
        (s', [Download (String.append "cropped-" (ImageData.name cur));
              Toast "Image cropped successfully" "success"])
      else (s, [])
  end.

(** [onClose] of the modal. *)
Definition handleClose (s : AppState) : AppState := setIsOpen s false.

(** ** Events *)

(** What the user and the browser can do to the component.  [OpenCropper i]
    is the scissors button of the [i]-th card of the grid. *)
Inductive Event : Type :=
| Drop (fresh : nat -> string * string) (acceptedFiles : list File.t)
| OpenCropper (i : nat)
| ImageLoad (naturalWidth naturalHeight : Q)
| CropComplete (croppedAreaPixels : Area.t)
| ZoomChange (value : Q)
| AspectRatioChange (value : Q)
| CropAreaChange (property : Property) (value : Q)
| CropSave (ctx blob : bool) (newId : string) (now : Z)
| Close.

Definition step (s : AppState) (e : Event) : AppState :=
  match e with
  | Drop fresh acceptedFiles => fst (onDrop fresh s acceptedFiles)
  | OpenCropper i =>
      match nth_error (images s) i with
      | Some image => handleOpenCropper s image
      | None => s
      end
  | ImageLoad w h => handleImageLoad s w h
  | CropComplete a => handleCropComplete s a
  | ZoomChange v => setZoom s v
  | AspectRatioChange v => handleAspectRatioChange s v
  | CropAreaChange p v => handleCropAreaChange s p v
  | CropSave ctx blob newId now => fst (handleCropSave s ctx blob newId now)
  | Close => handleClose s
  end.

Definition run (s : AppState) (events : list Event) : AppState :=
  fold_left step events s.

(** Opening an image for editing: the click on the card, then the [onLoad]
    of the image the modal mounts. *)
Definition begin (s : AppState) (image : ImageData.t) (naturalWidth naturalHeight : Q)
    : AppState :=
  handleImageLoad (handleOpenCropper s image) naturalWidth naturalHeight.

(** ** The specification's vocabulary *)

(** The rectangle invariants of the data model, for a minimum dimension. *)
Definition rectangle_invariants (minDimension : Q) (r : Area.t) (d : Dim.t) : bool :=
  Qle_bool minDimension (Area.width r) && Qle_bool minDimension (Area.height r)
  && Qle_bool 0 (Area.x r) && Qle_bool 0 (Area.y r)
  && Qle_bool (Area.x r + Area.width r) (Dim.width d)
  && Qle_bool (Area.y r + Area.height r) (Dim.height d).

(** Containment alone. *)
Definition contained (r : Area.t) (d : Dim.t) : Prop :=
  0 <= Area.x r /\ 0 <= Area.y r
  /\ Area.x r + Area.width r <= Dim.width d
  /\ Area.y r + Area.height r <= Dim.height d.

(** [clampToBounds] as the specification words it: shift first, then clamp
    at zero. *)
Definition clampToBounds_spec (rect : Area.t) (bounds : Dim.t) : Area.t :=
  let rect :=
    if num_gt (Area.x rect + Area.width rect) (Dim.width bounds)
    then Area.with_x rect (Dim.width bounds - Area.width rect) else rect in
  let rect :=
    if num_gt (Area.y rect + Area.height rect) (Dim.height bounds)
    then Area.with_y rect (Dim.height bounds - Area.height rect) else rect in
  let rect := if num_lt (Area.x rect) 0 then Area.with_x rect 0 else rect in
  let rect := if num_lt (Area.y rect) 0 then Area.with_y rect 0 else rect in
  rect.

(** [projectToRatio] as the specification words it. *)
Definition projectToRatio_spec (rect : Area.t) (ratio : Q) (bounds : Dim.t) : Area.t :=
  let height := Area.width rect / ratio in
  let rect :=
    if num_gt height (Dim.height bounds)
    then Area.with_height (Area.with_width rect (Dim.height bounds * ratio))
                          (Dim.height bounds)
    else Area.with_height rect height in
  clampToBounds_spec rect bounds.

(** The rectangle with each field rounded to the nearest integer. *)
Definition roundArea (r : Area.t) : Area.t :=
  Area.mk (Math_round (Area.x r)) (Math_round (Area.y r))
          (Math_round (Area.width r)) (Math_round (Area.height r)).

(** The value the aspect-ratio select was last set to in a run of events,
    [start] when it was never touched. *)
Definition lastSelected (start : Q) (events : list Event) : Q :=
  fold_left (fun acc e => match e with AspectRatioChange v => v | _ => acc end)
            events start.

(** ** Scenarios *)

(** Identifiers and object URLs as the browser might hand them out: the
    [n]-th is the [n]-th letter. *)
Definition letters (n : nat) : string * string :=
  let c := String (Ascii.ascii_of_nat (97 + n)) EmptyString in
  (String.append "id-" c, String.append "blob:" c).

Definition photo : File.t := File.mk "photo.png" 2048 "image/png".
Definition sketch : File.t := File.mk "sketch.png" 4096 "image/png".

(** One image of 1000 x 800 pixels, dropped and opened for the first time. *)
Definition editing_photo : list Event :=
  [Drop letters [photo]; OpenCropper 0; ImageLoad 1000 800].

(** The square lock, then the width field set to the full image width. *)
Definition widen_under_square : list Event :=
  editing_photo ++ [AspectRatioChange 1; CropAreaChange PWidth 1000].

(** The lower left 400 x 400 corner, typed into the fields. *)
Definition corner : list Event :=
  editing_photo
  ++ [CropAreaChange PWidth 400; CropAreaChange PHeight 400;
      CropAreaChange PY 400].

(** ... and then 9:16 picked in the select. *)
Definition corner_then_portrait : list Event :=
  corner ++ [AspectRatioChange (9 # 16)].

(** 16:9 on the full image: 1000 x 562.5. *)
Definition widescreen : list Event :=
  editing_photo ++ [AspectRatioChange (16 # 9)].

(** Two images, the first opened and set to 16:9. *)
Definition widescreen_of_two : list Event :=
  [Drop letters [photo; sketch]; OpenCropper 0; ImageLoad 1000 800;
   AspectRatioChange (16 # 9)].

(** ... then saved and closed; the second image opened, zoomed to 3 and
    closed; the first image opened again. *)
Definition save_zoom_other_reopen : list Event :=
  widescreen_of_two
  ++ [CropSave true true "crop-1" 1700000000; Close;
      OpenCropper 1; ImageLoad 640 480; ZoomChange 3; Close;
      OpenCropper 0; ImageLoad 1000 800].

(** The square lock in a first session, then the modal closed and the same
    image opened again. *)
Definition square_then_reopen : list Event :=
  editing_photo
  ++ [AspectRatioChange 1; Close; OpenCropper 0; ImageLoad 1000 800].

(** The modal just opened, the image not yet measured: the rectangle is
    still all zeros. *)
Definition opened_not_loaded : list Event :=
  [Drop letters [photo]; OpenCropper 0].

(** ** Removing an image: [handleDelete] *)

(** The updater handed to [setImages]: the images of another identifier are
    kept, and the object URL of the first image found with the identifier
    is revoked.  The list beside the state holds what this updater revokes
    itself, and nothing of what the cleanup of the [useEffect] on [images]
    revokes when the collection changes; no theorem below counts
    revocations. *)
Definition handleDelete (s : AppState) (id : string) : AppState * list string :=
  let updatedImages :=
    filter (fun img => negb (String.eqb (ImageData.id img) id)) (images s) in
  let deletedImage :=
    find (fun img => String.eqb (ImageData.id img) id) (images s) in
  (setImages s updatedImages,
   match deletedImage with
   | Some deleted => [ImageData.url deleted]
   | None => []
   end).

(** ** The canvas of a save *)

(** A number cut to an integer, its fraction dropped. *)
Definition truncate (n : Q) : Z :=
  if Qle_bool 0 n then Qfloor n else Qceiling n.

(** [canvas.width = cropArea.width] and [canvas.height = cropArea.height]:
    the attribute is an [unsigned long], so the number assigned is cut to
    an integer modulo 2^32. *)
Definition canvasSide (n : Q) : Z := (truncate n mod 2 ^ 32)%Z.

(** A canvas with a side of zero has no pixels, and [toBlob] hands [null]
    to its callback. *)
Definition canvasHasPixels (a : Area.t) : bool :=
  negb (canvasSide (Area.width a) =? 0)%Z
  && negb (canvasSide (Area.height a) =? 0)%Z.

(** [handleCropSave] with the blob its own canvas can give: none when the
    canvas, sized from the rectangle, has no pixels; otherwise [encoded]
    tells whether the encoding gave one. *)
Definition handleCropSave_canvas (s : AppState) (ctx encoded : bool)
    (newId : string) (now : Z) : AppState * list Effect :=
  handleCropSave s ctx (encoded && canvasHasPixels (cropArea s)) newId now.

(** Whether a report carries a notification of a failure. *)
Definition reportsError (report : list Effect) : bool :=
  existsb (fun e => match e with
                    | Toast _ status => String.eqb status "error"
                    | Download _ => false
                    end) report.

(** ** What the modal renders *)

(** The [min] and [max] the four number fields are given. *)
Definition fieldMin (p : Property) : Q :=
  match p with
  | PX | PY => 0
  | PWidth | PHeight => 10
  end.

Definition fieldMax (s : AppState) (p : Property) : Q :=
  match p with
  | PX => Dim.width (originalDimensions s) - Area.width (cropArea s)
  | PY => Dim.height (originalDimensions s) - Area.height (cropArea s)
  | PWidth => Dim.width (originalDimensions s)
  | PHeight => Dim.height (originalDimensions s)
  end.

(** ** Every handler of the component *)

(** The events of the cropper, and the delete button of a card. *)
Inductive Action : Type :=
| Ev (e : Event)
| Delete (id : string).

Definition act (s : AppState) (a : Action) : AppState :=
  match a with
  | Ev e => step s e
  | Delete id => fst (handleDelete s id)
  end.

Definition play (s : AppState) (actions : list Action) : AppState :=
  fold_left act actions s.

(** ** Vocabulary of the further properties *)

(** [area[property]]. *)
Definition read (a : Area.t) (property : Property) : Q :=
  match property with
  | PX => Area.x a
  | PY => Area.y a
  | PWidth => Area.width a
  | PHeight => Area.height a
  end.

(** The test [onDrop] filters the dropped files with. *)
Definition acceptsType (file : File.t) : bool :=
  String.prefix "image/" (File.type file).

(** An entry as [onDrop] creates it from its file. *)
Definition justAdded (img : ImageData.t) : Prop :=
  ImageData.name img = File.name (ImageData.file img)
  /\ ImageData.size img = File.size (ImageData.file img)
  /\ ImageData.cropped img = false
  /\ ImageData.cropHistory img = []
  /\ ImageData.lastCrop img = None.

(** [img'] is [img] some saves later: the same image, its history
    continued, its badge and its remembered crop not taken back. *)
Definition grown (img img' : ImageData.t) : Prop :=
  ImageData.id img' = ImageData.id img
  /\ ImageData.file img' = ImageData.file img
  /\ ImageData.url img' = ImageData.url img
  /\ ImageData.name img' = ImageData.name img
  /\ ImageData.size img' = ImageData.size img
  /\ (exists more,
        ImageData.cropHistory img' = ImageData.cropHistory img ++ more)
  /\ (ImageData.cropped img = true -> ImageData.cropped img' = true)
  /\ (ImageData.lastCrop img <> None -> ImageData.lastCrop img' <> None).

(** The badge, the history and the remembered crop of an entry tell the
    same story. *)
Definition consistent (img : ImageData.t) : Prop :=
  (ImageData.cropped img = true <-> ImageData.cropHistory img <> [])
  /\ (ImageData.cropped img = true <-> ImageData.lastCrop img <> None).

(** The events that belong to the edit session: all but a drop and a
    save. *)
Definition isEdit (e : Event) : bool :=
  match e with
  | Drop _ _ | CropSave _ _ _ _ => false
  | _ => true
  end.

(** The edit session: every cell of the state but the collection. *)
Definition session (s : AppState)
    : option ImageData.t * Point.t * Q * Q * Dim.t * Area.t * bool :=
  (currentImage s, crop s, zoom s, aspectRatio s, originalDimensions s,
   cropArea s, isOpen s).

(** * Proofs *)

(** ** Comparisons *)

Lemma num_lt_true (a b : Q) : num_lt a b = true <-> a < b.
Proof.
  unfold num_lt. rewrite negb_true_iff.
  destruct (Qle_bool b a) eqn:E.
  - apply Qle_bool_iff in E. split; [discriminate | intro; lra].
  - split; [intros _ | reflexivity].
    destruct (Qlt_le_dec a b) as [Hlt | Hle]; [exact Hlt |].
    apply Qle_bool_iff in Hle. congruence.
Qed.

Lemma num_lt_false (a b : Q) : num_lt a b = false <-> b <= a.
Proof.
  destruct (num_lt a b) eqn:E.
  - apply num_lt_true in E. split; [discriminate | intro; lra].
  - split; [intros _ | reflexivity].
    destruct (Qlt_le_dec a b) as [Hlt | Hle]; [| exact Hle].
    apply num_lt_true in Hlt. congruence.
Qed.

Lemma num_gt_true (a b : Q) : num_gt a b = true <-> b < a.
Proof. apply num_lt_true. Qed.

Lemma num_gt_false (a b : Q) : num_gt a b = false <-> a <= b.
Proof. apply num_lt_false. Qed.

Lemma num_eq_true (a b : Q) : num_eq a b = true <-> a == b.
Proof. apply Qeq_bool_iff. Qed.

Lemma num_eq_false (a b : Q) : num_eq a b = false <-> ~ a == b.
Proof.
  unfold num_eq. destruct (Qeq_bool a b) eqn:E.
  - apply Qeq_bool_iff in E. split; [discriminate | tauto].
  - split; [| reflexivity]. intros _ H. apply Qeq_bool_iff in H. congruence.
Qed.

(** Turns every number test in sight, hypothesis or branch, into the order
    fact it decides. *)
Ltac num_case t :=
  let E := fresh "E" in
  destruct t eqn:E;
  [ first [ apply num_gt_true in E | apply num_lt_true in E | apply num_eq_true in E ]
  | first [ apply num_gt_false in E | apply num_lt_false in E | apply num_eq_false in E ] ].

Ltac num_cases :=
  repeat match goal with
         | |- context [num_gt ?a ?b] => num_case (num_gt a b)
         | |- context [num_lt ?a ?b] => num_case (num_lt a b)
         end.

(** Reads the fields of the records in sight, and nothing else. *)
Ltac fields :=
  cbn [Area.x Area.y Area.width Area.height
       Area.with_x Area.with_y Area.with_width Area.with_height
       Dim.width Dim.height Point.x Point.y] in *.

(** ** The clamping step *)

Lemma keepWithinBounds_size (a : Area.t) (b : Dim.t) :
  Area.width (keepWithinBounds a b) = Area.width a
  /\ Area.height (keepWithinBounds a b) = Area.height a.
Proof.
  unfold keepWithinBounds. destruct a as [x y w h]; fields.
  destruct (num_lt x 0); destruct (num_lt y 0); fields;
    repeat match goal with
           | |- context [if ?t then _ else _] => destruct t; fields
           end; split; reflexivity.
Qed.

(** Where the step leaves the edges, whatever the rectangle. *)
Lemma keepWithinBounds_edges (a : Area.t) (b : Dim.t) :
  let r := keepWithinBounds a b in
  Area.x r + Area.width r <= Dim.width b
  /\ Area.y r + Area.height r <= Dim.height b
  /\ (0 <= Area.x r <-> Area.width a <= Dim.width b)
  /\ (0 <= Area.y r <-> Area.height a <= Dim.height b).
Proof.
  destruct a as [x y w h], b as [W H].
  unfold keepWithinBounds; fields.
  num_case (num_lt x 0); num_case (num_lt y 0); fields;
    num_cases; fields; num_cases; fields;
    repeat split; intros; lra.
Qed.




(** ** The numeric fields *)

Lemma handleCropAreaChange_cropArea (s : AppState) (p : Property) (v : Q) :
  exists a,
    cropArea (handleCropAreaChange s p v)
    = keepWithinBounds a (originalDimensions s)
    /\ (a = assign (cropArea s) p v
        \/ a = deriveOther (assign (cropArea s) p v) p v (aspectRatio s)
        \/ a = deriveOther (assign (cropArea s) p v) p v
                 (Dim.width (originalDimensions s)
                  / Dim.height (originalDimensions s))).
Proof.
  unfold handleCropAreaChange.
  destruct (num_gt (aspectRatio s) 0);
    [| destruct (num_eq (aspectRatio s) AspectRatios.ORIGINAL
                 && num_gt (Dim.width (originalDimensions s)) 0)];
    eexists; (split; [reflexivity |]); auto.
Qed.

(** C7.  Under a lock that resolves to the ratio [r] (a positive value of
    the select, or Original once the image width is known), one call of
    [handleCropAreaChange] on the width leaves the width at the value typed
    and sets the height to [value / r]; on the height it leaves the height
    at the value typed and sets the width to [value * r]; on [x] or [y] it
    leaves both dimensions as they were.  The dimension typed is not
    computed a second time from the one derived. *)
Theorem C7_locked_field_edit (s : AppState) (value r : Q) :
  (0 < aspectRatio s /\ r = aspectRatio s)
  \/ (aspectRatio s == AspectRatios.ORIGINAL
      /\ 0 < Dim.width (originalDimensions s)
      /\ 0 < Dim.height (originalDimensions s)
      /\ r = Dim.width (originalDimensions s) / Dim.height (originalDimensions s)) ->
  (let a := cropArea (handleCropAreaChange s PWidth value) in
   Area.width a = value /\ Area.height a = value / r)
  /\ (let a := cropArea (handleCropAreaChange s PHeight value) in
      Area.height a = value /\ Area.width a = value * r)
  /\ (let a := cropArea (handleCropAreaChange s PX value) in
      Area.width a = Area.width (cropArea s)
      /\ Area.height a = Area.height (cropArea s))
  /\ (let a := cropArea (handleCropAreaChange s PY value) in
      Area.width a = Area.width (cropArea s)
      /\ Area.height a = Area.height (cropArea s)).
Proof.
  intros Hlock.
  assert (Hbranch :
    forall p, cropArea (handleCropAreaChange s p value)
              = keepWithinBounds
                  (deriveOther (assign (cropArea s) p value) p value r)
                  (originalDimensions s)).
  { intro p. unfold handleCropAreaChange.
    destruct Hlock as [[Hpos ->] | (Horig & HW & _ & ->)].
    - apply num_gt_true in Hpos. rewrite Hpos. reflexivity.
    - assert (Hneg : num_gt (aspectRatio s) 0 = false).
      { apply num_gt_false. unfold AspectRatios.ORIGINAL in Horig. lra. }
      apply num_eq_true in Horig. apply num_gt_true in HW.
      rewrite Hneg, Horig, HW. reflexivity. }
  repeat split; cbv zeta; rewrite Hbranch;
    match goal with
    | |- context [keepWithinBounds ?a ?b] =>
        destruct (keepWithinBounds_size a b) as [Hw Hh]
    end; first [rewrite Hw | rewrite Hh]; reflexivity.
Qed.

(** ** The aspect-ratio select *)

(** C10.  While the image width is still recorded as 0, picking Original or
    a positive ratio stores the choice and touches nothing else: the crop
    rectangle is the one before. *)
Theorem C10_lock_before_dimensions (s : AppState) (value : Q) :
  Dim.width (originalDimensions s) == 0 ->
  value == AspectRatios.ORIGINAL \/ 0 < value ->
  handleAspectRatioChange s value = setAspectRatio s value
  /\ cropArea (handleAspectRatioChange s value) = cropArea s
  /\ aspectRatio (handleAspectRatioChange s value) = value.
Proof.
  intros HW Hvalue.
  assert (Hsame : handleAspectRatioChange s value = setAspectRatio s value).
  { unfold handleAspectRatioChange, adjustCropAreaToRatio.
    assert (Hfalsy : falsy (Dim.width (originalDimensions (setAspectRatio s value)))
                     = true) by (apply Qeq_bool_iff; exact HW).
    assert (Hnot : num_gt (Dim.width (originalDimensions (setAspectRatio s value))) 0
                   = false) by (apply num_gt_false; simpl; lra).
    rewrite Hfalsy, Hnot, andb_false_r.
    destruct (num_eq value AspectRatios.FREE); [reflexivity |].
    destruct (num_gt value 0); reflexivity. }
  rewrite Hsame. repeat split.
Qed.

(** The size the select leaves is the one the specification's projection
    computes; the position is the one before. *)
Lemma adjustCropAreaToRatio_size (s : AppState) (ratio : Q) :
  0 < ratio ->
  ~ Dim.width (originalDimensions s) == 0 ->
  let a := cropArea (adjustCropAreaToRatio s ratio) in
  let p := projectToRatio_spec (cropArea s) ratio (originalDimensions s) in
  Area.width a = Area.width p /\ Area.height a = Area.height p
  /\ Area.x a = Area.x (cropArea s) /\ Area.y a = Area.y (cropArea s).
Proof.
  intros _ HW. unfold adjustCropAreaToRatio, projectToRatio_spec, clampToBounds_spec.
  assert (Hfalsy : falsy (Dim.width (originalDimensions s)) = false)
    by (apply num_eq_false; exact HW).
  rewrite Hfalsy.
  destruct (num_gt (Area.width (cropArea s) / ratio)
                   (Dim.height (originalDimensions s)));
    cbn [cropArea setCropArea]; fields;
    repeat match goal with
           | |- context [if ?t then _ else _] => destruct t; fields
           end; repeat split.
Qed.

(** Free-form never touches the rectangle. *)
Lemma handleAspectRatioChange_free (s : AppState) :
  handleAspectRatioChange s AspectRatios.FREE = setAspectRatio s AspectRatios.FREE.
Proof. reflexivity. Qed.

(** C6.  On the 1000 x 800 image, with the rectangle {0, 400, 400, 400}
    typed into the fields, picking 9:16 gives the height 400 / (9/16) and
    leaves [y] at 400: the rectangle ends 311 pixels below the image, where
    the projection of the specification moves it up to y = 800/9. *)
Theorem C6_ratio_pick_overflows_image :
  let s0 := run initialState corner in
  let s := run initialState corner_then_portrait in
  Area.eqb (cropArea s0) (Area.mk 0 400 400 400) = true
  /\ rectangle_invariants 10 (cropArea s0) (originalDimensions s0) = true
  /\ Area.eqb (cropArea s) (Area.mk 0 400 400 (6400 # 9)) = true
  /\ num_gt (Area.y (cropArea s) + Area.height (cropArea s))
            (Dim.height (originalDimensions s)) = true
  /\ Area.eqb (projectToRatio_spec (cropArea s0) (9 # 16) (originalDimensions s0))
              (Area.mk 0 (800 # 9) 400 (6400 # 9)) = true.
Proof. vm_compute. repeat split. Qed.

(** C1.  On the 1000 x 800 image under the square lock the rectangle is
    {0, 0, 800, 800}, within the invariants; setting the width field to
    1000, the largest value the field allows, derives the height 1000 and
    shifts [y] to -200: the rectangle leaves the image. *)
Theorem C1_width_edit_leaves_image :
  let s0 := run initialState (editing_photo ++ [AspectRatioChange 1]) in
  let s := run initialState widen_under_square in
  originalDimensions s = Dim.mk 1000 800
  /\ Area.eqb (cropArea s0) (Area.mk 0 0 800 800) = true
  /\ rectangle_invariants 10 (cropArea s0) (originalDimensions s0) = true
  /\ Area.eqb (cropArea s) (Area.mk 0 (-200) 1000 1000) = true
  /\ rectangle_invariants 10 (cropArea s) (originalDimensions s) = false.
Proof. vm_compute. repeat split. Qed.

(** No handler holds a dimension at the minimum of 10: a width of 5 typed
    into the field stays 5, and a width of 10 under 16:9 derives a height
    of 5.625. *)
Remark dimension_below_minimum :
  Area.eqb (cropArea (run initialState (editing_photo ++ [CropAreaChange PWidth 5])))
           (Area.mk 0 0 5 800) = true
  /\ Area.eqb (cropArea (run initialState
                           (widescreen ++ [CropAreaChange PWidth 10])))
              (Area.mk 0 0 10 (45 # 8)) = true.
Proof. vm_compute. split; reflexivity. Qed.

(** Once a field has been edited the right and bottom edges are inside the
    image; the left and top edges are inside when the new size fits. *)
Lemma handleCropAreaChange_edges (s : AppState) (p : Property) (v : Q) :
  let a := cropArea (handleCropAreaChange s p v) in
  let d := originalDimensions s in
  Area.x a + Area.width a <= Dim.width d
  /\ Area.y a + Area.height a <= Dim.height d
  /\ (Area.width a <= Dim.width d -> 0 <= Area.x a)
  /\ (Area.height a <= Dim.height d -> 0 <= Area.y a).
Proof.
  destruct (handleCropAreaChange_cropArea s p v) as (a0 & -> & _).
  cbv zeta.
  destruct (keepWithinBounds_size a0 (originalDimensions s)) as [Hw Hh].
  destruct (keepWithinBounds_edges a0 (originalDimensions s))
    as (Hr & Hb & Hx & Hy).
  repeat split; [exact Hr | exact Hb | rewrite Hw; tauto | rewrite Hh; tauto].
Qed.

(** ** Saving a crop *)

(** What a save does to the image at each place of the collection, once the
    canvas has produced a blob. *)
Lemma handleCropSave_images (s : AppState) (cur : ImageData.t)
    (newId : string) (now : Z) (i : nat) (img : ImageData.t) :
  currentImage s = Some cur ->
  nth_error (images s) i = Some img ->
  nth_error (images (fst (handleCropSave s true true newId now))) i
  = Some (if String.eqb (ImageData.id img) (ImageData.id cur)
          then recordCrop
                 (CropInfo.mk newId
                    (Area.width (cropArea s), Area.height (cropArea s)) now)
                 (cropArea s) img
          else img).
Proof.
  intros Hcur Hnth. unfold handleCropSave. rewrite Hcur.
  cbn [andb fst images setImages].
  rewrite nth_error_map, Hnth. reflexivity.
Qed.

(** Without a context or without a blob nothing happens at all. *)
Lemma handleCropSave_nothing (s : AppState) (ctx blob : bool)
    (newId : string) (now : Z) :
  ctx && blob = false -> handleCropSave s ctx blob newId now = (s, []).
Proof.
  intros H. unfold handleCropSave. rewrite H.
  destruct (currentImage s); reflexivity.
Qed.

(** C2 (as amended).  With an image open and the blob produced, a save
    keeps the collection's length and order; in every image carrying the
    identifier of the open one it appends one record, made of the
    identifier just drawn, the current time and the width and height of the
    rectangle as they are, sets [lastCrop] to the rectangle as it is, and
    sets [cropped]; every other image is the one before.  The edit session
    itself is untouched, and the download and the success toast are
    issued. *)
Theorem C2_save_records_rectangle_as_is (s : AppState) (cur : ImageData.t)
    (newId : string) (now : Z) :
  currentImage s = Some cur ->
  let out := handleCropSave s true true newId now in
  let record :=
    CropInfo.mk newId (Area.width (cropArea s), Area.height (cropArea s)) now in
  List.length (images (fst out)) = List.length (images s)
  /\ cropArea (fst out) = cropArea s
  /\ snd out = [Download (String.append "cropped-" (ImageData.name cur));
                Toast "Image cropped successfully" "success"]
  /\ forall i img, nth_error (images s) i = Some img ->
       exists img', nth_error (images (fst out)) i = Some img'
         /\ ImageData.id img' = ImageData.id img
         /\ ImageData.name img' = ImageData.name img
         /\ ImageData.size img' = ImageData.size img
         /\ if String.eqb (ImageData.id img) (ImageData.id cur)
            then ImageData.cropHistory img' = ImageData.cropHistory img ++ [record]
                 /\ ImageData.lastCrop img' = Some (cropArea s)
                 /\ ImageData.cropped img' = true
            else img' = img.
Proof.
  intros Hcur. cbv zeta. repeat split.
  - unfold handleCropSave. rewrite Hcur. cbn [andb fst images setImages].
    apply length_map.
  - unfold handleCropSave. rewrite Hcur. reflexivity.
  - unfold handleCropSave. rewrite Hcur. reflexivity.
  - intros i img Hnth.
    rewrite (handleCropSave_images s cur newId now i img Hcur Hnth).
    eexists. split; [reflexivity |].
    destruct (String.eqb (ImageData.id img) (ImageData.id cur));
      repeat split.
Qed.

(** C2, the claim as stated fails: the 16:9 rectangle on the 1000 x 800
    image is 562.5 high, and the save stores it so, where rounding would
    store 563. *)
Lemma C2_save_keeps_fractions :
  let s := run initialState widescreen in
  let s' := fst (handleCropSave s true true "crop-1" 1700000000) in
  map ImageData.lastCrop (images s') = [Some (cropArea s)]
  /\ Area.eqb (cropArea s) (Area.mk 0 0 1000 (1125 # 2)) = true
  /\ Area.eqb (roundArea (cropArea s)) (Area.mk 0 0 1000 563) = true
  /\ Area.eqb (cropArea s) (roundArea (cropArea s)) = false.
Proof. vm_compute. repeat split. Qed.

(** A number that rounds to zero is cut to zero. *)
Lemma round_zero_truncate_zero (n : Q) : Math_round n == 0 -> truncate n = 0%Z.
Proof.
  unfold Math_round, truncate. intros Hround.
  assert (Hfloor : Qfloor (n + (1 # 2)) = 0%Z).
  { unfold Qeq, inject_Z in Hround. cbn [Qnum Qden] in Hround. lia. }
  pose proof (Qfloor_le (n + (1 # 2))) as Hlow.
  rewrite Hfloor in Hlow. change (inject_Z 0) with 0 in Hlow.
  destruct (Qle_bool 0 n) eqn:Esign.
  - apply Qle_bool_iff in Esign.
    pose proof (Qfloor_resp_le 0 n Esign) as H1.
    assert (H2 : n <= n + (1 # 2)) by lra.
    apply Qfloor_resp_le in H2. rewrite Hfloor in H2.
    change (Qfloor 0) with 0%Z in H1. lia.
  - unfold Qceiling.
    assert (Hneg : n < 0).
    { destruct (Qlt_le_dec n 0) as [H | H]; [exact H |].
      apply Qle_bool_iff in H. congruence. }
    assert (H1 : 0 <= - n) by lra.
    apply Qfloor_resp_le in H1. change (Qfloor 0) with 0%Z in H1.
    assert (H2 : - n <= 1 # 2) by lra.
    apply Qfloor_resp_le in H2. change (Qfloor (1 # 2)) with 0%Z in H2. lia.
Qed.

(** The canvas of a rectangle with a dimension that rounds to zero has no
    pixels. *)
Lemma empty_region_no_pixels (a : Area.t) :
  Math_round (Area.width a) == 0 \/ Math_round (Area.height a) == 0 ->
  canvasHasPixels a = false.
Proof.
  unfold canvasHasPixels, canvasSide.
  intros [H | H]; rewrite (round_zero_truncate_zero _ H); cbn [Z.modulo];
    [reflexivity | apply andb_false_r].
Qed.

(** C8 (as amended).  When the width or the height of the rectangle rounds
    to 0, a save appends no history entry, leaves [lastCrop] as it is and
    exports nothing: the state is the one before.  It does not fail,
    though: it ends without an error and without a notification of any
    kind. *)
Theorem C8_empty_region_saves_nothing_silently (s : AppState) (ctx encoded : bool)
    (newId : string) (now : Z) :
  Math_round (Area.width (cropArea s)) == 0
  \/ Math_round (Area.height (cropArea s)) == 0 ->
  handleCropSave_canvas s ctx encoded newId now = (s, [])
  /\ reportsError (snd (handleCropSave_canvas s ctx encoded newId now)) = false.
Proof.
  intros Hempty.
  assert (Hsame : handleCropSave_canvas s ctx encoded newId now = (s, [])).
  { unfold handleCropSave_canvas. apply handleCropSave_nothing.
    rewrite (empty_region_no_pixels _ Hempty), andb_false_r.
    apply andb_false_r. }
  rewrite Hsame. split; reflexivity.
Qed.

(** C8, the claim as stated fails.  With the modal open and the image not
    yet measured the rectangle is all zeros, so both dimensions round to 0.
    A save then reports no failure: no error is notified, and nothing at
    all is issued. *)
Lemma C8_empty_region_is_not_reported :
  Area.eqb (roundArea (cropArea (run initialState opened_not_loaded)))
           (Area.mk 0 0 0 0) = true
  /\ reportsError
       (snd (handleCropSave_canvas (run initialState opened_not_loaded)
                                   true true "crop-1" 1700000000)) = false
  /\ snd (handleCropSave_canvas (run initialState opened_not_loaded)
                                true true "crop-1" 1700000000) = [].
Proof. vm_compute. repeat split. Qed.

(** ** Opening the cropper *)

Lemma adjustCropAreaToRatio_aspectRatio (s : AppState) (ratio : Q) :
  aspectRatio (adjustCropAreaToRatio s ratio) = aspectRatio s.
Proof.
  unfold adjustCropAreaToRatio.
  destruct (falsy _); [reflexivity |].
  destruct (num_gt _ _); reflexivity.
Qed.

Lemma handleAspectRatioChange_aspectRatio (s : AppState) (value : Q) :
  aspectRatio (handleAspectRatioChange s value) = value.
Proof.
  unfold handleAspectRatioChange.
  repeat match goal with
         | |- context [if ?t then _ else _] => destruct t
         end;
    rewrite ?adjustCropAreaToRatio_aspectRatio; reflexivity.
Qed.

Lemma onDrop_aspectRatio (fresh : nat -> string * string) (s : AppState)
    (files : list File.t) :
  aspectRatio (fst (onDrop fresh s files)) = aspectRatio s.
Proof.
  unfold onDrop.
  destruct (List.length _ =? 0)%nat; [reflexivity |].
  destruct (fold_left _ _ _) as [duplicates newImages]. reflexivity.
Qed.

Lemma handleOpenCropper_aspectRatio (s : AppState) (image : ImageData.t) :
  aspectRatio (handleOpenCropper s image) = aspectRatio s.
Proof. unfold handleOpenCropper. destruct (ImageData.lastCrop image); reflexivity. Qed.

Lemma handleImageLoad_aspectRatio (s : AppState) (w h : Q) :
  aspectRatio (handleImageLoad s w h) = aspectRatio s.
Proof.
  unfold handleImageLoad. destruct (currentImage s) as [image |]; [| reflexivity].
  destruct (ImageData.lastCrop image); reflexivity.
Qed.

Lemma handleCropSave_aspectRatio (s : AppState) (ctx blob : bool)
    (newId : string) (now : Z) :
  aspectRatio (fst (handleCropSave s ctx blob newId now)) = aspectRatio s.
Proof.
  unfold handleCropSave. destruct (currentImage s); [| reflexivity].
  destruct (ctx && blob); reflexivity.
Qed.

(** Only the select writes the lock. *)
Lemma step_aspectRatio (s : AppState) (e : Event) :
  aspectRatio (step s e)
  = match e with AspectRatioChange v => v | _ => aspectRatio s end.
Proof.
  destruct e; cbn [step].
  - apply onDrop_aspectRatio.
  - destruct (nth_error (images s) i);
      [apply handleOpenCropper_aspectRatio | reflexivity].
  - apply handleImageLoad_aspectRatio.
  - reflexivity.
  - reflexivity.
  - apply handleAspectRatioChange_aspectRatio.
  - reflexivity.
  - apply handleCropSave_aspectRatio.
  - reflexivity.
Qed.

Lemma run_aspectRatio (events : list Event) (s : AppState) :
  aspectRatio (run s events) = lastSelected (aspectRatio s) events.
Proof.
  revert s. induction events as [| e rest IH]; intro s; [reflexivity |].
  unfold run, lastSelected in *. cbn [fold_left].
  rewrite IH, step_aspectRatio. reflexivity.
Qed.

(** C3 (as amended).  Opening the cropper does not write the lock: after
    [begin] it is what it was before.  Over any run of events from the
    start of the application the lock is the value last picked in the
    select, and Free only as long as nothing was picked. *)
Theorem C3_lock_is_the_last_pick (events : list Event) (s : AppState)
    (image : ImageData.t) (w h : Q) :
  aspectRatio (begin s image w h) = aspectRatio s
  /\ aspectRatio (run initialState events) = lastSelected AspectRatios.FREE events.
Proof.
  split.
  - unfold begin. rewrite handleImageLoad_aspectRatio.
    apply handleOpenCropper_aspectRatio.
  - apply (run_aspectRatio events initialState).
Qed.

(** C3, the claim as stated fails: the square lock picked in a first
    session is still set when the same image is opened again. *)
Lemma C3_square_lock_survives_reopening :
  let s := run initialState square_then_reopen in
  isOpen s = true
  /\ num_eq (aspectRatio s) AspectRatios.SQUARE = true
  /\ num_eq (aspectRatio s) AspectRatios.FREE = false.
Proof. vm_compute. repeat split. Qed.

(** What [begin] seeds. *)
Lemma begin_seeds (s : AppState) (image : ImageData.t) (w h : Q) :
  originalDimensions (begin s image w h) = Dim.mk w h
  /\ match ImageData.lastCrop image with
     | Some last =>
         cropArea (begin s image w h) = last
         /\ zoom (begin s image w h) = zoom s
     | None =>
         cropArea (begin s image w h) = Area.mk 0 0 w h
         /\ zoom (begin s image w h) = 1
     end.
Proof.
  unfold begin, handleOpenCropper, handleImageLoad.
  destruct (ImageData.lastCrop image) as [last |] eqn:E;
    cbn [currentImage setIsOpen setCropArea setCrop setZoom setCurrentImage];
    rewrite E; repeat split.
Qed.

(** C4 (as amended).  [begin] records the measured dimensions.  With a
    [lastCrop] it seeds the rectangle with it and leaves the zoom at the
    value the shared control holds; without one it seeds the full image and
    zoom 1.  After a save that produced its blob, every image carrying the
    identifier of the saved one reopens on the rectangle of that save,
    field for field as it was. *)
Theorem C4_begin_seeds_from_lastCrop (s : AppState) (image : ImageData.t) (w h : Q) :
  (originalDimensions (begin s image w h) = Dim.mk w h
   /\ match ImageData.lastCrop image with
      | Some last =>
          cropArea (begin s image w h) = last
          /\ zoom (begin s image w h) = zoom s
      | None =>
          cropArea (begin s image w h) = Area.mk 0 0 w h
          /\ zoom (begin s image w h) = 1
      end)
  /\ (forall s0 cur newId now i img,
        currentImage s0 = Some cur ->
        nth_error (images s0) i = Some img ->
        ImageData.id img = ImageData.id cur ->
        exists img',
          nth_error (images (fst (handleCropSave s0 true true newId now))) i
          = Some img'
          /\ cropArea (begin s img' w h) = cropArea s0).
Proof.
  split; [apply begin_seeds |].
  intros s0 cur newId now i img Hcur Hnth Hid.
  eexists. split; [apply (handleCropSave_images s0 cur newId now i img Hcur Hnth) |].
  rewrite Hid, String.eqb_refl.
  destruct (begin_seeds s (recordCrop
              (CropInfo.mk newId
                 (Area.width (cropArea s0), Area.height (cropArea s0)) now)
              (cropArea s0) img) w h) as [_ Hseed].
  cbn [recordCrop ImageData.lastCrop] in Hseed. apply Hseed.
Qed.

(** C4, the claim as stated fails.  The first image is saved at 16:9, 562.5
    pixels high, with the zoom at 1; the second is then zoomed to 3.  Opened
    again, the first image shows the rectangle 562.5 high, not the rounded
    563, and the zoom is 3: neither the value used with that crop nor 1. *)
Lemma C4_reopen_keeps_fraction_and_foreign_zoom :
  let saving := run initialState widescreen_of_two in
  let s := run initialState save_zoom_other_reopen in
  num_eq (zoom saving) 1 = true
  /\ Area.eqb (cropArea s) (cropArea saving) = true
  /\ Area.eqb (cropArea s) (roundArea (cropArea saving)) = false
  /\ num_eq (zoom s) 3 = true
  /\ num_eq (zoom s) (zoom saving) = false
  /\ num_eq (zoom s) 1 = false.
Proof. vm_compute. repeat split. Qed.

(** ** Intake *)

(** Every image the [forEach] creates comes from a file that matched none
    of the images already in the collection. *)
Lemma onDrop_each_new (known : list ImageData.t) (fresh : nat -> string * string)
    (files : list File.t) (acc : list string * list ImageData.t) :
  Forall (fun img => isDuplicate known (ImageData.file img) = false) (snd acc) ->
  Forall (fun img => isDuplicate known (ImageData.file img) = false)
         (snd (fold_left (onDrop_each known fresh) files acc)).
Proof.
  revert acc. induction files as [| file rest IH]; intros acc Hacc; [exact Hacc |].
  cbn [fold_left]. apply IH.
  destruct acc as [duplicates newImages]. unfold onDrop_each.
  destruct (isDuplicate known file) eqn:E; [exact Hacc |].
  destruct (fresh (List.length newImages)) as [id url]. cbn [snd] in *.
  apply Forall_app. split; [exact Hacc |].
  constructor; [exact E | constructor].
Qed.

(** A file matching an image received by an earlier drop is not added. *)
Lemma onDrop_rejects_known (fresh : nat -> string * string) (s : AppState)
    (files : list File.t) (img : ImageData.t) :
  In img (images (fst (onDrop fresh s files))) ->
  In img (images s) \/ isDuplicate (images s) (ImageData.file img) = false.
Proof.
  unfold onDrop.
  destruct (List.length _ =? 0)%nat; [left; assumption |].
  pose proof (onDrop_each_new (images s) fresh
                (slice0 (filter (fun file => String.prefix "image/" (File.type file))
                                files)
                        (10 - Z.of_nat (List.length (images s))))
                ([], []) (Forall_nil _)) as Hnew.
  destruct (fold_left _ _ _) as [duplicates newImages].
  cbn [fst snd images setImages] in *. intros Hin.
  apply in_app_or in Hin. destruct Hin as [Hold | Hin]; [left; exact Hold |].
  right. rewrite Forall_forall in Hnew. apply Hnew, Hin.
Qed.

(** C9.  The same file dropped in two drops is added once; dropped twice in
    one drop it is added twice, and no duplicate is reported: the test
    looks at the images of earlier drops only. *)
Theorem C9_twins_in_one_drop_both_added :
  map (fun img => (ImageData.name img, ImageData.size img))
      (images (run initialState [Drop letters [photo]; Drop letters [photo]]))
  = [("photo.png"%string, 2048%N)]
  /\ map (fun img => (ImageData.name img, ImageData.size img))
         (images (fst (onDrop letters initialState [photo; photo])))
     = [("photo.png"%string, 2048%N); ("photo.png"%string, 2048%N)]
  /\ snd (onDrop letters initialState [photo; photo]) = [].
Proof. vm_compute. repeat split. Qed.

(** * Instances *)

(** C2 at the 16:9 rectangle of the 1000 x 800 image. *)
Lemma C2_save_records_rectangle_as_is_witness :
  let s := run initialState widescreen in
  exists cur,
    currentImage s = Some cur
    /\ List.length (images (fst (handleCropSave s true true "crop-1" 1700000000)))
       = List.length (images s).
Proof.
  eexists. split; [reflexivity |].
  apply (C2_save_records_rectangle_as_is
           (run initialState widescreen) _ "crop-1" 1700000000 eq_refl).
Defined.

(** C4 at the same save: the image reopens on the rectangle 562.5 high. *)
Lemma C4_begin_seeds_from_lastCrop_witness :
  let s0 := run initialState widescreen in
  exists img',
    nth_error (images (fst (handleCropSave s0 true true "crop-1" 1700000000))) 0
    = Some img'
    /\ cropArea (begin (handleClose s0) img' 1000 800) = cropArea s0.
Proof.
  cbv zeta.
  destruct (C4_begin_seeds_from_lastCrop
              (handleClose (run initialState widescreen))
              (ImageData.mk "id-a" photo "blob:a" "photo.png" 2048 false [] None)
              1000 800) as [_ Hresume].
  apply (Hresume (run initialState widescreen)
                 (ImageData.mk "id-a" photo "blob:a" "photo.png" 2048 false [] None)
                 "crop-1"%string 1700000000%Z 0%nat
                 (ImageData.mk "id-a" photo "blob:a" "photo.png" 2048 false [] None));
    reflexivity.
Defined.


(** C7 at the square lock on the 1000 x 800 image, width set to 600. *)
Lemma C7_locked_field_edit_witness :
  let s := run initialState (editing_photo ++ [AspectRatioChange 1]) in
  0 < aspectRatio s
  /\ Area.width (cropArea (handleCropAreaChange s PWidth 600)) = 600
  /\ Area.height (cropArea (handleCropAreaChange s PWidth 600)) = 600 / aspectRatio s.
Proof.
  cbv zeta.
  assert (Hpos : 0 < aspectRatio (run initialState (editing_photo ++ [AspectRatioChange 1])))
    by (vm_compute; reflexivity).
  split; [exact Hpos |].
  exact (proj1 (C7_locked_field_edit
                  (run initialState (editing_photo ++ [AspectRatioChange 1]))
                  600 _ (or_introl (conj Hpos eq_refl)))).
Defined.

(** C8 at a rectangle 0.4 wide on the opened image: the width rounds
    to 0. *)
Lemma C8_empty_region_saves_nothing_silently_witness :
  Math_round (Area.width (cropArea (handleCropAreaChange
                                      (run initialState editing_photo)
                                      PWidth (2 # 5)))) == 0
  /\ handleCropSave_canvas
       (handleCropAreaChange (run initialState editing_photo) PWidth (2 # 5))
       true true "crop-1" 1700000000
     = (handleCropAreaChange (run initialState editing_photo) PWidth (2 # 5), []).
Proof.
  assert (H : Math_round (Area.width (cropArea (handleCropAreaChange
                                                  (run initialState editing_photo)
                                                  PWidth (2 # 5)))) == 0)
    by (vm_compute; reflexivity).
  split; [exact H |].
  exact (proj1 (C8_empty_region_saves_nothing_silently
                  (handleCropAreaChange (run initialState editing_photo)
                                        PWidth (2 # 5))
                  true true "crop-1" 1700000000 (or_introl H))).
Defined.

(** C10 at the modal just opened: the dimensions still read 0 x 0. *)
Lemma C10_lock_before_dimensions_witness :
  let s := run initialState opened_not_loaded in
  Dim.width (originalDimensions s) == 0
  /\ (16 # 9 == AspectRatios.ORIGINAL \/ 0 < 16 # 9)
  /\ cropArea (handleAspectRatioChange s (16 # 9)) = cropArea s
  /\ aspectRatio (handleAspectRatioChange s (16 # 9)) = 16 # 9.
Proof.
  cbv zeta.
  assert (HW : Dim.width (originalDimensions (run initialState opened_not_loaded)) == 0)
    by (vm_compute; reflexivity).
  assert (Hv : 16 # 9 == AspectRatios.ORIGINAL \/ 0 < 16 # 9)
    by (right; reflexivity).
  split; [exact HW | split; [exact Hv |]].
  exact (proj2 (C10_lock_before_dimensions
                  (run initialState opened_not_loaded) (16 # 9) HW Hv)).
Defined.

(** * Further properties *)

(** ** The bounds step *)

Lemma rectangle_invariants_true (m : Q) (r : Area.t) (d : Dim.t) :
  rectangle_invariants m r d = true
  <-> m <= Area.width r /\ m <= Area.height r
      /\ 0 <= Area.x r /\ 0 <= Area.y r
      /\ Area.x r + Area.width r <= Dim.width d
      /\ Area.y r + Area.height r <= Dim.height d.
Proof.
  unfold rectangle_invariants.
  rewrite !andb_true_iff, !Qle_bool_iff. tauto.
Qed.

(** Closes a branch of the bounds step: the same rectangle on both sides,
    or tests that cannot hold together. *)
Ltac same_or_absurd := first [reflexivity | exfalso; lra].

(** X1.  Running the bounds step a second time changes nothing. *)
Theorem keepWithinBounds_idempotent (a : Area.t) (b : Dim.t) :
  keepWithinBounds (keepWithinBounds a b) b = keepWithinBounds a b.
Proof.
  destruct a as [x y w h], b as [W H].
  unfold keepWithinBounds; fields.
  num_case (num_lt x 0); num_case (num_lt y 0); fields;
    num_cases; fields; num_cases; fields;
    num_cases; fields; num_cases; fields; same_or_absurd.
Qed.

(** X2.  A rectangle that lies inside the bounds is left as it is. *)
Theorem keepWithinBounds_contained (a : Area.t) (b : Dim.t) :
  contained a b -> keepWithinBounds a b = a.
Proof.
  destruct a as [x y w h], b as [W H].
  unfold contained, keepWithinBounds; fields.
  intros (Hx & Hy & Hr & Hb).
  num_case (num_lt x 0); num_case (num_lt y 0); fields;
    num_cases; fields; num_cases; fields; same_or_absurd.
Qed.

Lemma keepWithinBounds_contained_witness :
  contained (Area.mk 100 50 400 300) (Dim.mk 1000 800)
  /\ keepWithinBounds (Area.mk 100 50 400 300) (Dim.mk 1000 800)
     = Area.mk 100 50 400 300.
Proof.
  assert (H : contained (Area.mk 100 50 400 300) (Dim.mk 1000 800))
    by (unfold contained; simpl; repeat split; lra).
  split; [exact H | exact (keepWithinBounds_contained _ _ H)].
Defined.

(** ** The number fields *)

(** Without a lock, and for [x] and [y] under any lock, an edit assigns
    the field and runs the bounds step. *)
Lemma handleCropAreaChange_plain (s : AppState) (p : Property) (v : Q) :
  p = PX \/ p = PY \/ aspectRatio s == AspectRatios.FREE ->
  cropArea (handleCropAreaChange s p v)
  = keepWithinBounds (assign (cropArea s) p v) (originalDimensions s).
Proof.
  intros Hp. unfold handleCropAreaChange.
  destruct Hp as [-> | [-> | Hfree]].
  - destruct (num_gt _ _); [reflexivity |]. destruct (_ && _); reflexivity.
  - destruct (num_gt _ _); [reflexivity |]. destruct (_ && _); reflexivity.
  - assert (H1 : num_gt (aspectRatio s) 0 = false).
    { apply num_gt_false. unfold AspectRatios.FREE in Hfree. lra. }
    assert (H2 : num_eq (aspectRatio s) AspectRatios.ORIGINAL = false).
    { apply num_eq_false. unfold AspectRatios.FREE, AspectRatios.ORIGINAL in *.
      intro H. rewrite Hfree in H. discriminate H. }
    rewrite H1, H2. reflexivity.
Qed.

(** Under a lock that resolves to [r], an edit assigns the field, derives
    the other dimension once and runs the bounds step. *)
Lemma handleCropAreaChange_locked (s : AppState) (p : Property) (v r : Q) :
  (0 < aspectRatio s /\ r = aspectRatio s)
  \/ (aspectRatio s == AspectRatios.ORIGINAL
      /\ 0 < Dim.width (originalDimensions s)
      /\ r = Dim.width (originalDimensions s) / Dim.height (originalDimensions s)) ->
  cropArea (handleCropAreaChange s p v)
  = keepWithinBounds (deriveOther (assign (cropArea s) p v) p v r)
                     (originalDimensions s).
Proof.
  intros Hlock. unfold handleCropAreaChange.
  destruct Hlock as [[Hpos ->] | (Horig & HW & ->)].
  - apply num_gt_true in Hpos. rewrite Hpos. reflexivity.
  - assert (Hneg : num_gt (aspectRatio s) 0 = false).
    { apply num_gt_false. unfold AspectRatios.ORIGINAL in Horig. lra. }
    apply num_eq_true in Horig. apply num_gt_true in HW.
    rewrite Hneg, Horig, HW. reflexivity.
Qed.

(** X3.  A value inside the range its field declares keeps a valid
    rectangle valid, when the field is [x] or [y] or no lock is set: the
    field reads the value typed, the five invariants hold again, and an
    edit of [x] or [y] moves nothing else. *)
Theorem handleCropAreaChange_in_range (s : AppState) (p : Property) (v : Q) :
  p = PX \/ p = PY \/ aspectRatio s == AspectRatios.FREE ->
  rectangle_invariants 10 (cropArea s) (originalDimensions s) = true ->
  fieldMin p <= v <= fieldMax s p ->
  let s' := handleCropAreaChange s p v in
  read (cropArea s') p = v
  /\ rectangle_invariants 10 (cropArea s') (originalDimensions s') = true
  /\ (p = PX \/ p = PY -> cropArea s' = assign (cropArea s) p v).
Proof.
  intros Hp Hvalid Hrange. cbv zeta.
  assert (Hdims : originalDimensions (handleCropAreaChange s p v)
                  = originalDimensions s) by reflexivity.
  rewrite Hdims, (handleCropAreaChange_plain s p v Hp).
  apply rectangle_invariants_true in Hvalid.
  destruct Hvalid as (Hw & Hh & Hx & Hy & Hr & Hb).
  rewrite rectangle_invariants_true.
  unfold fieldMin, fieldMax in Hrange.
  destruct (cropArea s) as [x y w h], (originalDimensions s) as [W H].
  unfold keepWithinBounds; fields.
  destruct p; cbn [assign read] in *; fields;
    num_cases; fields; num_cases; fields;
    (repeat split; intros; first [reflexivity | lra | exfalso; lra
                                 | match goal with
                                   | H : _ \/ _ |- _ =>
                                       destruct H; discriminate
                                   end]).
Qed.

Lemma handleCropAreaChange_in_range_witness :
  let s := run initialState editing_photo in
  rectangle_invariants 10 (cropArea s) (originalDimensions s) = true
  /\ fieldMin PWidth <= 400 <= fieldMax s PWidth
  /\ rectangle_invariants 10 (cropArea (handleCropAreaChange s PWidth 400))
                          (originalDimensions (handleCropAreaChange s PWidth 400))
     = true.
Proof.
  cbv zeta.
  assert (Hvalid : rectangle_invariants 10
                     (cropArea (run initialState editing_photo))
                     (originalDimensions (run initialState editing_photo)) = true)
    by (vm_compute; reflexivity).
  assert (Hrange : fieldMin PWidth <= 400
                   <= fieldMax (run initialState editing_photo) PWidth)
    by (vm_compute; split; discriminate).
  split; [exact Hvalid | split; [exact Hrange |]].
  exact (proj1 (proj2 (handleCropAreaChange_in_range
                         (run initialState editing_photo) PWidth 400
                         (or_intror (or_intror (Qeq_refl _))) Hvalid Hrange))).
Defined.

(** ** The aspect ratio *)

Lemma Qdiv_times (w r : Q) : 0 < r -> w / r * r == w.
Proof. intros Hr. field. intro H0. rewrite H0 in Hr. discriminate Hr. Qed.

(** A quotient above [H] has its dividend above [H * r].  On doubles the
    same holds of the rounded quotient and product, rounding being
    monotone. *)
Lemma Qdiv_above (w r H : Q) : 0 < r -> H < w / r -> H * r < w.
Proof.
  intros Hr Hlt. rewrite <- (Qdiv_times w r Hr).
  apply Qmult_lt_compat_r; assumption.
Qed.

Lemma original_ratio_positive (W H : Q) : 0 < W -> 0 < H -> 0 < W / H.
Proof. intros HW HH. apply Qlt_shift_div_l; [exact HH | lra]. Qed.

(** With the width known, a pick that resolves to [r] is the projection
    at [r]. *)
Lemma handleAspectRatioChange_resolved (s : AppState) (value r : Q) :
  0 < Dim.width (originalDimensions s) ->
  (0 < value /\ r = value)
  \/ (value == AspectRatios.ORIGINAL
      /\ r = Dim.width (originalDimensions s) / Dim.height (originalDimensions s)) ->
  handleAspectRatioChange s value
  = adjustCropAreaToRatio (setAspectRatio s value) r.
Proof.
  intros HW Hvalue. unfold handleAspectRatioChange.
  cbn [originalDimensions setAspectRatio].
  destruct Hvalue as [[Hpos ->] | [Horig ->]].
  - assert (H1 : num_eq value AspectRatios.FREE = false).
    { apply num_eq_false. unfold AspectRatios.FREE. lra. }
    assert (H2 : num_eq value AspectRatios.ORIGINAL = false).
    { apply num_eq_false. unfold AspectRatios.ORIGINAL. lra. }
    apply num_gt_true in Hpos. rewrite H1, H2, Hpos. reflexivity.
  - assert (H1 : num_eq value AspectRatios.FREE = false).
    { apply num_eq_false. unfold AspectRatios.FREE, AspectRatios.ORIGINAL in *. lra. }
    apply num_eq_true in Horig. apply num_gt_true in HW.
    rewrite H1, Horig, HW. reflexivity.
Qed.

(** The projection at a positive ratio, with the width known: the width is
    kept and the height is the quotient, or the height is the image height
    and the width is the product. *)
Lemma adjustCropAreaToRatio_shape (s : AppState) (r : Q) :
  0 < r -> 0 < Dim.width (originalDimensions s) ->
  let a := cropArea (adjustCropAreaToRatio s r) in
  Area.height a <= Dim.height (originalDimensions s)
  /\ Area.width a <= Area.width (cropArea s)
  /\ Area.x a = Area.x (cropArea s) /\ Area.y a = Area.y (cropArea s)
  /\ ((Area.width a = Area.width (cropArea s)
       /\ Area.height a = Area.width (cropArea s) / r)
      \/ (Area.height a = Dim.height (originalDimensions s)
          /\ Area.width a = Dim.height (originalDimensions s) * r)).
Proof.
  intros Hr HW. unfold adjustCropAreaToRatio.
  assert (Hfalsy : falsy (Dim.width (originalDimensions s)) = false)
    by (apply num_eq_false; lra).
  rewrite Hfalsy.
  destruct (cropArea s) as [x y w h] eqn:Ea.
  destruct (originalDimensions s) as [W H] eqn:Ed; fields.
  num_case (num_gt (w / r) H); cbn [cropArea setCropArea]; fields.
  - pose proof (Qdiv_above w r H Hr E) as Hlt.
    split; [lra |]. split; [lra |].
    split; [reflexivity |]. split; [reflexivity |].
    right; split; reflexivity.
  - split; [exact E |]. split; [lra |].
    split; [reflexivity |]. split; [reflexivity |].
    left; split; reflexivity.
Qed.

(** X5.  With the image width known, a pick that resolves to the positive
    ratio [r] stores the value picked and leaves the rectangle at the
    position it had, not higher than the image and not wider than before:
    either the width is kept and the height is [width / r], or the height
    is the image height and the width is [height * r]. *)
Theorem handleAspectRatioChange_projects (s : AppState) (value r : Q) :
  0 < Dim.width (originalDimensions s) ->
  (0 < value /\ r = value)
  \/ (value == AspectRatios.ORIGINAL
      /\ 0 < Dim.height (originalDimensions s)
      /\ r = Dim.width (originalDimensions s) / Dim.height (originalDimensions s)) ->
  let s' := handleAspectRatioChange s value in
  let a := cropArea s' in
  aspectRatio s' = value
  /\ Area.height a <= Dim.height (originalDimensions s)
  /\ Area.width a <= Area.width (cropArea s)
  /\ Area.x a = Area.x (cropArea s) /\ Area.y a = Area.y (cropArea s)
  /\ ((Area.width a = Area.width (cropArea s)
       /\ Area.height a = Area.width (cropArea s) / r)
      \/ (Area.height a = Dim.height (originalDimensions s)
          /\ Area.width a = Dim.height (originalDimensions s) * r)).
Proof.
  intros HW Hvalue. cbv zeta.
  assert (Hr : 0 < r).
  { destruct Hvalue as [[Hpos ->] | (_ & HH & ->)];
      [exact Hpos | apply original_ratio_positive; assumption]. }
  rewrite (handleAspectRatioChange_resolved s value r HW) by tauto.
  split; [apply adjustCropAreaToRatio_aspectRatio |].
  apply (adjustCropAreaToRatio_shape (setAspectRatio s value) r Hr HW).
Qed.

Lemma handleAspectRatioChange_projects_witness :
  let s := run initialState corner in
  0 < Dim.width (originalDimensions s)
  /\ Area.height (cropArea (handleAspectRatioChange s (9 # 16)))
     <= Dim.height (originalDimensions s)
  /\ Area.width (cropArea (handleAspectRatioChange s (9 # 16)))
     <= Area.width (cropArea s).
Proof.
  cbv zeta.
  assert (HW : 0 < Dim.width (originalDimensions (run initialState corner)))
    by (vm_compute; reflexivity).
  split; [exact HW |].
  destruct (handleAspectRatioChange_projects
              (run initialState corner) (9 # 16) (9 # 16) HW
              (or_introl (conj eq_refl eq_refl))) as (_ & Hh & Hw & _).
  split; [exact Hh | exact Hw].
Defined.

(** X7.  On an image opened for the first time (no remembered crop, size
    [W] x [H] measured), a first pick that resolves to the positive ratio
    [r] gives a rectangle at the top left corner that lies inside the
    image: it spans the full width with the height [W / r], or the full
    height with the width [H * r]. *)
Theorem first_pick_fits_image (s : AppState) (image : ImageData.t)
    (W H value r : Q) :
  ImageData.lastCrop image = None ->
  0 < W -> 0 < H ->
  (0 < value /\ r = value) \/ (value == AspectRatios.ORIGINAL /\ r = W / H) ->
  let a := cropArea (handleAspectRatioChange (begin s image W H) value) in
  Area.x a = 0 /\ Area.y a = 0
  /\ Area.width a <= W /\ Area.height a <= H
  /\ ((Area.width a = W /\ Area.height a = W / r)
      \/ (Area.height a = H /\ Area.width a = H * r)).
Proof.
  intros Hlast HW HH Hvalue. cbv zeta.
  destruct (begin_seeds s image W H) as [Hdims Hseed].
  rewrite Hlast in Hseed. destruct Hseed as [Harea _].
  assert (Hr : 0 < r).
  { destruct Hvalue as [[Hpos ->] | [_ ->]];
      [exact Hpos | apply original_ratio_positive; assumption]. }
  assert (HW' : 0 < Dim.width (originalDimensions (begin s image W H)))
    by (rewrite Hdims; exact HW).
  rewrite (handleAspectRatioChange_resolved (begin s image W H) value r HW')
    by (rewrite Hdims; exact Hvalue).
  destruct (adjustCropAreaToRatio_shape
              (setAspectRatio (begin s image W H) value) r Hr HW')
    as (Hh & Hw & Hx & Hy & Hshape).
  cbn [originalDimensions cropArea setAspectRatio] in *.
  rewrite Hdims in *. rewrite Harea in *. fields.
  repeat split; assumption.
Qed.

Lemma first_pick_fits_image_witness :
  ImageData.lastCrop (ImageData.mk "id-a" photo "blob:a" "photo.png" 2048 false [] None)
  = None
  /\ Area.width
       (cropArea (handleAspectRatioChange
                    (begin initialState
                       (ImageData.mk "id-a" photo "blob:a" "photo.png" 2048
                                     false [] None)
                       1000 800)
                    (16 # 9)))
     <= 1000.
Proof.
  split; [reflexivity |].
  exact (proj1 (proj2 (proj2
           (first_pick_fits_image initialState
              (ImageData.mk "id-a" photo "blob:a" "photo.png" 2048 false [] None)
              1000 800 (16 # 9) (16 # 9)
              eq_refl eq_refl eq_refl (or_introl (conj eq_refl eq_refl)))))).
Defined.

(** ** Intake *)

Lemma slice0_nil {A : Type} (n : Z) : slice0 (@nil A) n = [].
Proof. unfold slice0. destruct (0 <=? n)%Z; apply firstn_nil. Qed.

Lemma slice0_incl {A : Type} (l : list A) (n : Z) (a : A) :
  In a (slice0 l n) -> In a l.
Proof.
  unfold slice0. destruct (0 <=? n)%Z; intro H;
    match type of H with
    | In _ (firstn ?k _) =>
        rewrite <- (firstn_skipn k l); apply in_or_app; left; exact H
    end.
Qed.

Lemma slice0_length {A : Type} (l : list A) (n : Z) :
  (0 <= n)%Z -> (List.length (slice0 l n) <= Z.to_nat n)%nat.
Proof.
  intro Hn. unfold slice0.
  destruct (0 <=? n)%Z eqn:E; [apply firstn_le_length |].
  apply Z.leb_gt in E. exfalso. apply (Z.lt_irrefl n).
  apply Z.lt_le_trans with 0%Z; assumption.
Qed.

Lemma slice0_all {A : Type} (l : list A) (n : Z) :
  (Z.of_nat (List.length l) <= n)%Z -> slice0 l n = l.
Proof.
  intro Hn. unfold slice0.
  assert (E : (0 <=? n)%Z = true).
  { apply Z.leb_le. apply Z.le_trans with (Z.of_nat (List.length l));
      [apply Nat2Z.is_nonneg | exact Hn]. }
  rewrite E. apply firstn_all2.
  apply Nat2Z.inj_le. rewrite Z2Nat.id; [exact Hn |].
  apply Z.leb_le, E.
Qed.

Lemma filter_length_existsb {A : Type} (p : A -> bool) (l : list A) :
  (0 <? List.length (filter p l))%nat = existsb p l.
Proof.
  induction l as [| a rest IH]; [reflexivity |].
  cbn [filter existsb]. destruct (p a); [reflexivity | exact IH].
Qed.

(** The [forEach] of [onDrop], file after file: the names of the files that
    match a known image are collected, and one entry is appended for each
    of the others. *)
Lemma onDrop_each_fold (known : list ImageData.t) (fresh : nat -> string * string)
    (files : list File.t) (duplicates : list string) (newImages : list ImageData.t) :
  fst (fold_left (onDrop_each known fresh) files (duplicates, newImages))
  = duplicates ++ map File.name (filter (isDuplicate known) files)
  /\ exists added,
       snd (fold_left (onDrop_each known fresh) files (duplicates, newImages))
       = newImages ++ added
       /\ map ImageData.file added
          = filter (fun file => negb (isDuplicate known file)) files
       /\ Forall justAdded added.
Proof.
  revert duplicates newImages.
  induction files as [| file rest IH]; intros duplicates newImages.
  - cbn [fold_left filter map fst snd]. rewrite app_nil_r.
    split; [reflexivity |]. exists []. rewrite app_nil_r.
    repeat split. constructor.
  - cbn [fold_left filter]. unfold onDrop_each at 2 4.
    destruct (isDuplicate known file) eqn:E; cbn [negb].
    + destruct (IH (duplicates ++ [File.name file]) newImages)
        as (Hd & added & Hn & Hfiles & Hfresh).
      split.
      * rewrite Hd. cbn [map]. rewrite <- app_assoc. reflexivity.
      * exists added. repeat split; assumption.
    + destruct (fresh (List.length newImages)) as [id url].
      destruct (IH duplicates
                   (newImages ++ [ImageData.mk id file url (File.name file)
                                               (File.size file) false [] None]))
        as (Hd & added & Hn & Hfiles & Hfresh).
      split; [exact Hd |].
      exists (ImageData.mk id file url (File.name file) (File.size file)
                           false [] None :: added).
      split; [rewrite Hn, <- app_assoc; reflexivity |].
      split; [cbn [map ImageData.file]; rewrite Hfiles; reflexivity |].
      constructor; [repeat split | exact Hfresh].
Qed.

(** What a drop appends, and what it reports. *)
Lemma onDrop_outcome (fresh : nat -> string * string) (s : AppState)
    (files : list File.t) :
  let valid := filter acceptsType files in
  let toAdd := slice0 valid (10 - Z.of_nat (List.length (images s))) in
  (exists added,
     fst (onDrop fresh s files) = setImages s (images s ++ added)
     /\ map ImageData.file added
        = filter (fun file => negb (isDuplicate (images s) file)) toAdd
     /\ Forall justAdded added)
  /\ snd (onDrop fresh s files)
     = if (List.length valid =? 0)%nat then [Toast "Invalid files" "error"]
       else (if (10 - Z.of_nat (List.length (images s))
                 <? Z.of_nat (List.length valid))%Z
             then [Toast "Too many files" "warning"] else [])
            ++ (if existsb (isDuplicate (images s)) toAdd
                then [Toast "Duplicate files detected" "info"] else []).
Proof.
  cbv zeta. unfold onDrop. fold acceptsType.
  change (filter (fun file => acceptsType file) files)
    with (filter acceptsType files).
  destruct (List.length (filter acceptsType files) =? 0)%nat eqn:Elen.
  - split; [| reflexivity].
    apply Nat.eqb_eq, length_zero_iff_nil in Elen. rewrite Elen, slice0_nil.
    exists []. rewrite app_nil_r. destruct s; repeat split. constructor.
  - destruct (onDrop_each_fold (images s) fresh
                (slice0 (filter acceptsType files)
                        (10 - Z.of_nat (List.length (images s))))
                [] [])
      as (Hd & added & Hn & Hfiles & Hfresh).
    destruct (fold_left _ _ _) as [duplicates newImages].
    cbn [fst snd app] in *. subst duplicates newImages.
    split.
    + exists added. repeat split; assumption.
    + rewrite length_map, filter_length_existsb. reflexivity.
Qed.

Lemma setImages_same (s : AppState) : setImages s (images s) = s.
Proof. destruct s; reflexivity. Qed.

(** X9.  A drop appends to the collection, behind the images it holds, one
    fresh entry for each of the first [10 - n] image files that match no
    image of the collection by name and size, in the order dropped; the
    images held before, and the edit session, are as they were. *)
Theorem onDrop_appends_new_image_files (fresh : nat -> string * string)
    (s : AppState) (files : list File.t) :
  exists added,
    images (fst (onDrop fresh s files)) = images s ++ added
    /\ map ImageData.file added
       = filter (fun file => negb (isDuplicate (images s) file))
                (slice0 (filter acceptsType files)
                        (10 - Z.of_nat (List.length (images s))))
    /\ Forall justAdded added
    /\ (forall img, In img added ->
          In (ImageData.file img) files
          /\ acceptsType (ImageData.file img) = true
          /\ isDuplicate (images s) (ImageData.file img) = false)
    /\ session (fst (onDrop fresh s files)) = session s.
Proof.
  destruct (onDrop_outcome fresh s files) as [(added & Hs & Hfiles & Hfresh) _].
  exists added. rewrite Hs.
  split; [reflexivity |]. split; [exact Hfiles |]. split; [exact Hfresh |].
  split; [| reflexivity].
  intros img Hin.
  assert (Hf : In (ImageData.file img) (map ImageData.file added))
    by (apply in_map; exact Hin).
  rewrite Hfiles in Hf. apply filter_In in Hf. destruct Hf as [Hslice Hnew].
  apply slice0_incl, filter_In in Hslice. destruct Hslice as [Hdropped Htype].
  apply negb_true_iff in Hnew. repeat split; assumption.
Qed.

Lemma in_if_single (b : bool) (e x : Effect) :
  In x (if b then [e] else []) <-> b = true /\ x = e.
Proof.
  destruct b; cbn [In].
  - split; [intros [H | []]; split; [reflexivity | symmetry; exact H]
           | intros [_ H]; left; symmetry; exact H].
  - split; [intros [] | intros [H _]; discriminate H].
Qed.

(** X10.  What a drop reports.  "Invalid files" is shown exactly when no
    dropped file is an image; "Too many files" exactly when there are image
    files and more of them than places left under ten; "Duplicate files
    detected" exactly when one of the image files within those places
    matches an image of the collection. *)
Theorem onDrop_toasts (fresh : nat -> string * string) (s : AppState)
    (files : list File.t) :
  let valid := filter acceptsType files in
  let room := (10 - Z.of_nat (List.length (images s)))%Z in
  let report := snd (onDrop fresh s files) in
  (In (Toast "Invalid files" "error") report <-> valid = [])
  /\ (In (Toast "Too many files" "warning") report
      <-> valid <> [] /\ (room < Z.of_nat (List.length valid))%Z)
  /\ (In (Toast "Duplicate files detected" "info") report
      <-> exists file, In file (slice0 valid room)
                       /\ isDuplicate (images s) file = true).
Proof.
  cbv zeta. destruct (onDrop_outcome fresh s files) as [_ Hreport].
  cbv zeta in Hreport. rewrite Hreport. clear Hreport.
  set (valid := filter acceptsType files).
  set (room := (10 - Z.of_nat (List.length (images s)))%Z).
  destruct (List.length valid =? 0)%nat eqn:Elen.
  - apply Nat.eqb_eq, length_zero_iff_nil in Elen. rewrite Elen, slice0_nil.
    split; [| split].
    + split; intros _; [reflexivity | left; reflexivity].
    + split; [intros [H | []]; discriminate H | intros [H _]; now elim H].
    + split; [intros [H | []]; discriminate H | intros (file & [] & _)].
  - assert (Hne : valid <> []).
    { intro H. rewrite H in Elen. discriminate Elen. }
    rewrite !in_app_iff, !in_if_single, <- existsb_exists, Z.ltb_lt.
    split; [| split].
    + split; [intros [[_ H] | [_ H]]; discriminate H | intro H; now elim Hne].
    + split; [intros [[H _] | [_ H]]; [split; assumption | discriminate H]
             | intros [_ H]; left; split; [exact H | reflexivity]].
    + split; [intros [[_ H] | [H _]]; [discriminate H | exact H]
             | intro H; right; split; [exact H | reflexivity]].
Qed.

(** A drop of files that all match images of the collection changes
    nothing. *)
Lemma onDrop_all_known (fresh : nat -> string * string) (s : AppState)
    (files : list File.t) :
  (forall file, In file files -> acceptsType file = true ->
                isDuplicate (images s) file = true) ->
  fst (onDrop fresh s files) = s.
Proof.
  intros Hknown.
  destruct (onDrop_outcome fresh s files) as [(added & Hs & Hfiles & _) _].
  rewrite Hs.
  assert (Hnone : added = []).
  { apply map_eq_nil with (f := ImageData.file). rewrite Hfiles.
    match goal with
    | |- filter ?p ?l = [] =>
        destruct (filter p l) as [| file rest] eqn:E; [reflexivity |]
    end.
    assert (Hin : In file (file :: rest)) by (left; reflexivity).
    rewrite <- E in Hin. apply filter_In in Hin. destruct Hin as [Hslice Hnew].
    apply slice0_incl, filter_In in Hslice. destruct Hslice as [Hdropped Htype].
    rewrite (Hknown file Hdropped Htype) in Hnew. discriminate Hnew. }
  rewrite Hnone, app_nil_r. apply setImages_same.
Qed.

(** X11.  Dropping again a batch that fitted under the cap adds nothing:
    every image file of the batch now matches an image of the
    collection. *)
Theorem onDrop_again_adds_nothing (fresh fresh' : nat -> string * string)
    (s : AppState) (files : list File.t) :
  (Z.of_nat (List.length (filter acceptsType files))
   <= 10 - Z.of_nat (List.length (images s)))%Z ->
  fst (onDrop fresh' (fst (onDrop fresh s files)) files)
  = fst (onDrop fresh s files).
Proof.
  intros Hroom. apply onDrop_all_known. intros file Hdropped Htype.
  destruct (onDrop_outcome fresh s files) as [(added & Hs & Hfiles & Hfresh) _].
  rewrite Hs. cbn [images setImages].
  rewrite (slice0_all _ _ Hroom) in Hfiles.
  unfold isDuplicate. rewrite existsb_app. apply orb_true_iff.
  destruct (isDuplicate (images s) file) eqn:Edup; [left; exact Edup | right].
  assert (Hin : In file (map ImageData.file added)).
  { rewrite Hfiles. apply filter_In. split.
    - apply filter_In. split; assumption.
    - rewrite Edup. reflexivity. }
  apply in_map_iff in Hin. destruct Hin as (img & Hfile & Hin).
  apply existsb_exists. exists img. split; [exact Hin |].
  rewrite Forall_forall in Hfresh.
  destruct (Hfresh img Hin) as (Hname & Hsize & _).
  rewrite Hname, Hsize, Hfile, String.eqb_refl, N.eqb_refl. reflexivity.
Qed.

Lemma onDrop_again_adds_nothing_witness :
  fst (onDrop letters (fst (onDrop letters initialState [photo; sketch]))
              [photo; sketch])
  = fst (onDrop letters initialState [photo; sketch]).
Proof.
  apply (onDrop_again_adds_nothing letters letters initialState [photo; sketch]).
  vm_compute. discriminate.
Defined.

(** ** Removing an image *)

Lemma filter_other_ids (id : string) (l : list ImageData.t) :
  (forall img, In img l -> ImageData.id img <> id) ->
  filter (fun img => negb (String.eqb (ImageData.id img) id)) l = l.
Proof.
  intros H. apply forallb_filter_id, forallb_forall. intros img Hin.
  apply negb_true_iff, String.eqb_neq, H, Hin.
Qed.



(** X13.  Dropping one new image file onto a collection with room left,
    and deleting the entry by the identifier it was given, gives back the
    state before the drop, provided no image of the collection carries that
    identifier. *)
Theorem drop_then_delete (fresh : nat -> string * string) (s : AppState)
    (file : File.t) :
  acceptsType file = true ->
  isDuplicate (images s) file = false ->
  (List.length (images s) < 10)%nat ->
  (forall img, In img (images s) -> ImageData.id img <> fst (fresh 0%nat)) ->
  fst (handleDelete (fst (onDrop fresh s [file])) (fst (fresh 0%nat))) = s.
Proof.
  intros Htype Hnew Hroom Hids.
  assert (Hdrop : fst (onDrop fresh s [file])
                  = setImages s
                      (images s
                       ++ [ImageData.mk (fst (fresh 0%nat)) file (snd (fresh 0%nat))
                                        (File.name file) (File.size file)
                                        false [] None])).
  { unfold onDrop. fold acceptsType. cbn [filter]. rewrite Htype.
    cbn [List.length Nat.eqb].
    rewrite slice0_all by (cbn [List.length]; lia).
    cbn [fold_left]. unfold onDrop_each. rewrite Hnew. cbn [List.length].
    destruct (fresh 0%nat) as [id url]. reflexivity. }
  rewrite Hdrop. unfold handleDelete. cbn [fst images setImages].
  rewrite filter_app, (filter_other_ids _ _ Hids).
  cbn [filter ImageData.id]. rewrite String.eqb_refl.
  cbn [negb]. rewrite app_nil_r. destruct s; reflexivity.
Qed.

Lemma drop_then_delete_witness :
  isDuplicate (images (run initialState [Drop letters [photo]])) sketch = false
  /\ fst (handleDelete
            (fst (onDrop (fun n => letters (S n))
                         (run initialState [Drop letters [photo]]) [sketch]))
            "id-b")
     = run initialState [Drop letters [photo]].
Proof.
  split; [reflexivity |].
  apply (drop_then_delete (fun n => letters (S n))
           (run initialState [Drop letters [photo]]) sketch).
  - reflexivity.
  - reflexivity.
  - vm_compute. repeat constructor.
  - intros img [<- | []]. discriminate.
Defined.

(** ** The collection and the edit session *)

Lemma handleOpenCropper_images (s : AppState) (image : ImageData.t) :
  images (handleOpenCropper s image) = images s.
Proof. unfold handleOpenCropper. destruct (ImageData.lastCrop image); reflexivity. Qed.

Lemma handleImageLoad_images (s : AppState) (w h : Q) :
  images (handleImageLoad s w h) = images s.
Proof.
  unfold handleImageLoad. destruct (currentImage s) as [image |]; [| reflexivity].
  destruct (ImageData.lastCrop image); reflexivity.
Qed.

Lemma handleAspectRatioChange_images (s : AppState) (value : Q) :
  images (handleAspectRatioChange s value) = images s.
Proof.
  unfold handleAspectRatioChange, adjustCropAreaToRatio.
  repeat match goal with
         | |- context [if ?t then _ else _] => destruct t
         end; reflexivity.
Qed.

(** An event of the edit session leaves the collection alone. *)
Lemma step_images_edit (s : AppState) (e : Event) :
  isEdit e = true -> images (step s e) = images s.
Proof.
  destruct e; cbn [isEdit step]; intros H; try discriminate H; try reflexivity.
  - destruct (nth_error (images s) i);
      [apply handleOpenCropper_images | reflexivity].
  - apply handleImageLoad_images.
  - apply handleAspectRatioChange_images.
Qed.

Lemma handleCropSave_session (s : AppState) (ctx blob : bool)
    (newId : string) (now : Z) :
  session (fst (handleCropSave s ctx blob newId now)) = session s.
Proof.
  unfold handleCropSave. destruct (currentImage s); [| reflexivity].
  destruct (ctx && blob); reflexivity.
Qed.

(** X14.  The collection and the edit session are kept apart.  No run of
    events of the edit session (opening, image load, crop area reported,
    zoom, ratio pick, field edit, close) changes the collection; a drop, a
    save and a delete change nothing of the edit session: after a save the
    modal is still open on the same image, rectangle, zoom and lock. *)
Theorem collection_and_session_apart (s : AppState) :
  (forall events, forallb isEdit events = true ->
                  images (run s events) = images s)
  /\ (forall fresh files, session (fst (onDrop fresh s files)) = session s)
  /\ (forall ctx blob newId now,
        session (fst (handleCropSave s ctx blob newId now)) = session s)
  /\ (forall id, session (fst (handleDelete s id)) = session s).
Proof.
  split; [| split; [| split]].
  - intros events. revert s.
    induction events as [| e rest IH]; intros s Hall; [reflexivity |].
    cbn [forallb] in Hall. apply andb_true_iff in Hall. destruct Hall as [He Hrest].
    unfold run in *. cbn [fold_left].
    rewrite (IH (step s e) Hrest). apply step_images_edit, He.
  - intros fresh files.
    destruct (onDrop_outcome fresh s files) as [(added & -> & _) _]. reflexivity.
  - intros. apply handleCropSave_session.
  - reflexivity.
Qed.

Lemma collection_and_session_apart_witness :
  forallb isEdit [OpenCropper 0; ImageLoad 1000 800; AspectRatioChange 1;
                  CropAreaChange PWidth 600; ZoomChange 2; Close] = true
  /\ images (run (run initialState [Drop letters [photo]])
                 [OpenCropper 0; ImageLoad 1000 800; AspectRatioChange 1;
                  CropAreaChange PWidth 600; ZoomChange 2; Close])
     = images (run initialState [Drop letters [photo]]).
Proof.
  split; [reflexivity |].
  exact (proj1 (collection_and_session_apart
                  (run initialState [Drop letters [photo]]))
               [OpenCropper 0; ImageLoad 1000 800; AspectRatioChange 1;
                CropAreaChange PWidth 600; ZoomChange 2; Close] eq_refl).
Defined.

(** X15.  Two saves in a row, each with its blob, append two records to
    the owning image, both with the dimensions of the rectangle, which the
    first save has left in place. *)
Theorem save_twice (s : AppState) (cur img : ImageData.t) (i : nat)
    (id1 id2 : string) (t1 t2 : Z) :
  currentImage s = Some cur ->
  nth_error (images s) i = Some img ->
  ImageData.id img = ImageData.id cur ->
  let s1 := fst (handleCropSave s true true id1 t1) in
  let s2 := fst (handleCropSave s1 true true id2 t2) in
  let size := (Area.width (cropArea s), Area.height (cropArea s)) in
  exists img2,
    nth_error (images s2) i = Some img2
    /\ ImageData.cropHistory img2
       = ImageData.cropHistory img ++ [CropInfo.mk id1 size t1; CropInfo.mk id2 size t2]
    /\ ImageData.lastCrop img2 = Some (cropArea s)
    /\ ImageData.cropped img2 = true.
Proof.
  intros Hcur Hnth Hid. cbv zeta.
  pose proof (handleCropSave_session s true true id1 t1) as Hsession.
  unfold session in Hsession. injection Hsession as Hcur1 _ _ _ _ Harea1 _.
  pose proof (handleCropSave_images s cur id1 t1 i img Hcur Hnth) as H1.
  rewrite Hid, String.eqb_refl in H1.
  rewrite Hcur in Hcur1.
  pose proof (handleCropSave_images _ cur id2 t2 i _ Hcur1 H1) as H2.
  cbn [recordCrop ImageData.id] in H2. rewrite Hid, String.eqb_refl in H2.
  rewrite Harea1 in H2.
  eexists. split; [exact H2 |].
  cbn [recordCrop ImageData.cropHistory ImageData.lastCrop ImageData.cropped].
  rewrite <- app_assoc. repeat split.
Qed.

Lemma save_twice_witness :
  let s := run initialState widescreen in
  exists img2,
    nth_error (images (fst (handleCropSave
                              (fst (handleCropSave s true true "crop-1" 1700000000))
                              true true "crop-2" 1700000060))) 0
    = Some img2
    /\ List.length (ImageData.cropHistory img2) = 2%nat.
Proof.
  cbv zeta.
  destruct (save_twice (run initialState widescreen)
              (ImageData.mk "id-a" photo "blob:a" "photo.png" 2048 false [] None)
              (ImageData.mk "id-a" photo "blob:a" "photo.png" 2048 false [] None)
              0 "crop-1" "crop-2" 1700000000 1700000060
              eq_refl eq_refl eq_refl) as (img2 & Hnth & Hhist & _).
  exists img2. split; [exact Hnth |]. rewrite Hhist. reflexivity.
Defined.

(** ** What the collection keeps *)

Lemma grown_refl (img : ImageData.t) : grown img img.
Proof.
  unfold grown. repeat split; try tauto.
  exists []. rewrite app_nil_r. reflexivity.
Qed.

Lemma grown_trans (a b c : ImageData.t) : grown a b -> grown b c -> grown a c.
Proof.
  unfold grown.
  intros (H1 & H2 & H3 & H4 & H5 & (m1 & H6) & H7 & H8)
         (K1 & K2 & K3 & K4 & K5 & (m2 & K6) & K7 & K8).
  repeat split; try congruence; try tauto.
  exists (m1 ++ m2). rewrite K6, H6, app_assoc. reflexivity.
Qed.

Lemma recordCrop_grown (c : CropInfo.t) (area : Area.t) (img : ImageData.t) :
  grown img (recordCrop c area img).
Proof.
  unfold grown, recordCrop; cbn. repeat split; try discriminate.
  exists [c]. reflexivity.
Qed.

Lemma handleCropSave_grown (s : AppState) (ctx blob : bool) (newId : string)
    (now : Z) (i : nat) (img : ImageData.t) :
  nth_error (images s) i = Some img ->
  exists img',
    nth_error (images (fst (handleCropSave s ctx blob newId now))) i = Some img'
    /\ grown img img'.
Proof.
  intros Hnth. unfold handleCropSave.
  destruct (currentImage s) as [cur |];
    [| exists img; split; [exact Hnth | apply grown_refl]].
  destruct (ctx && blob);
    [| exists img; split; [exact Hnth | apply grown_refl]].
  cbn [fst images setImages]. rewrite nth_error_map, Hnth. cbn [option_map].
  eexists. split; [reflexivity |].
  destruct (String.eqb _ _); [apply recordCrop_grown | apply grown_refl].
Qed.

Lemma step_grown (s : AppState) (e : Event) (i : nat) (img : ImageData.t) :
  nth_error (images s) i = Some img ->
  exists img', nth_error (images (step s e)) i = Some img' /\ grown img img'.
Proof.
  intros Hnth.
  destruct (isEdit e) eqn:Hedit.
  - rewrite (step_images_edit s e Hedit).
    exists img. split; [exact Hnth | apply grown_refl].
  - destruct e; try discriminate Hedit; cbn [step].
    + destruct (onDrop_outcome fresh s acceptedFiles) as [(added & -> & _) _].
      cbn [images setImages]. exists img. split; [| apply grown_refl].
      rewrite nth_error_app1; [exact Hnth |].
      apply nth_error_Some. rewrite Hnth. discriminate.
    + apply handleCropSave_grown, Hnth.
Qed.

(** X16.  Whatever the cropper and the drop zone go through, an image of
    the collection stays at its place with its identifier, file, URL, name
    and size; its crop history is only ever continued at the end, and its
    Cropped badge and remembered crop, once set, are not taken back. *)
Theorem run_keeps_images (events : list Event) (s : AppState) (i : nat)
    (img : ImageData.t) :
  nth_error (images s) i = Some img ->
  exists img',
    nth_error (images (run s events)) i = Some img' /\ grown img img'.
Proof.
  revert s img.
  induction events as [| e rest IH]; intros s img Hnth.
  - exists img. split; [exact Hnth | apply grown_refl].
  - destruct (step_grown s e i img Hnth) as (img1 & Hnth1 & Hgrown1).
    destruct (IH (step s e) img1 Hnth1) as (img' & Hnth' & Hgrown').
    exists img'. split; [exact Hnth' | exact (grown_trans _ _ _ Hgrown1 Hgrown')].
Qed.

Lemma run_keeps_images_witness :
  let s := run initialState widescreen_of_two in
  exists img img',
    nth_error (images s) 0 = Some img
    /\ nth_error
         (images (run s [CropSave true true "crop-1" 1700000000; Close;
                         Drop letters [photo]; OpenCropper 1])) 0
       = Some img'
    /\ grown img img'.
Proof.
  cbv zeta.
  destruct (run_keeps_images
              [CropSave true true "crop-1" 1700000000; Close;
               Drop letters [photo]; OpenCropper 1]
              (run initialState widescreen_of_two) 0
              (ImageData.mk "id-a" photo "blob:a" "photo.png" 2048 false [] None)
              eq_refl) as (img' & Hnth & Hgrown).
  exists (ImageData.mk "id-a" photo "blob:a" "photo.png" 2048 false [] None), img'.
  split; [reflexivity | split; assumption].
Defined.

Lemma justAdded_consistent (img : ImageData.t) : justAdded img -> consistent img.
Proof.
  unfold justAdded, consistent. intros (_ & _ & -> & -> & ->).
  repeat split; intros H; try discriminate H; now elim H.
Qed.

Lemma recordCrop_consistent (c : CropInfo.t) (area : Area.t) (img : ImageData.t) :
  consistent (recordCrop c area img).
Proof.
  unfold consistent, recordCrop; cbn.
  repeat split; intros _; try reflexivity; try discriminate.
  intro H. apply app_eq_nil in H. destruct H as [_ H]. discriminate H.
Qed.

Lemma Forall_filter_keeps {A : Type} (P : A -> Prop) (f : A -> bool) (l : list A) :
  Forall P l -> Forall P (filter f l).
Proof.
  intros H. apply Forall_forall. intros a Hin. apply filter_In in Hin.
  rewrite Forall_forall in H. apply H, Hin.
Qed.

Lemma filter_shorter {A : Type} (f : A -> bool) (l : list A) :
  (List.length (filter f l) <= List.length l)%nat.
Proof.
  induction l as [| a rest IH]; [apply Nat.le_refl |].
  cbn [filter]. destruct (f a); cbn [List.length]; lia.
Qed.

(** One action keeps the collection at ten images at most, and each of its
    entries consistent. *)
Lemma act_keeps_collection (s : AppState) (a : Action) :
  (List.length (images s) <= 10)%nat /\ Forall consistent (images s) ->
  (List.length (images (act s a)) <= 10)%nat
  /\ Forall consistent (images (act s a)).
Proof.
  intros [Hcap Hall].
  destruct a as [e | id]; cbn [act].
  - destruct (isEdit e) eqn:Hedit;
      [rewrite (step_images_edit s e Hedit); split; assumption |].
    destruct e; try discriminate Hedit; cbn [step].
    + destruct (onDrop_outcome fresh s acceptedFiles)
        as [(added & -> & Hfiles & Hfresh) _].
      cbn [images setImages]. split.
      * rewrite length_app, <- (length_map ImageData.file added), Hfiles.
        pose proof (filter_shorter
                      (fun file => negb (isDuplicate (images s) file))
                      (slice0 (filter acceptsType acceptedFiles)
                              (10 - Z.of_nat (List.length (images s))))) as H1.
        pose proof (slice0_length (filter acceptsType acceptedFiles)
                      (10 - Z.of_nat (List.length (images s)))) as H2.
        lia.
      * apply Forall_app. split; [exact Hall |].
        eapply Forall_impl; [| exact Hfresh]. apply justAdded_consistent.
    + unfold handleCropSave. destruct (currentImage s) as [cur |];
        [| split; assumption].
      destruct (ctx && blob); [| split; assumption].
      cbn [fst images setImages]. split; [rewrite length_map; exact Hcap |].
      apply Forall_forall. intros img' Hin. apply in_map_iff in Hin.
      destruct Hin as (img & <- & Hin).
      destruct (String.eqb _ _); [apply recordCrop_consistent |].
      rewrite Forall_forall in Hall. apply Hall, Hin.
  - unfold handleDelete. cbn [fst images setImages]. split.
    + pose proof (filter_shorter
                    (fun img => negb (String.eqb (ImageData.id img) id))
                    (images s)). lia.
    + apply Forall_filter_keeps, Hall.
Qed.

(** X17.  From the start of the application, whatever is dropped, opened,
    edited, saved and deleted, the collection never holds more than ten
    images. *)
Theorem collection_never_exceeds_ten (actions : list Action) :
  (List.length (images (play initialState actions)) <= 10)%nat.
Proof.
  assert (H : forall s,
             (List.length (images s) <= 10)%nat /\ Forall consistent (images s) ->
             (List.length (images (play s actions)) <= 10)%nat).
  { induction actions as [| a rest IH]; intros s Hs; [apply Hs |].
    unfold play in *. cbn [fold_left]. apply IH, act_keeps_collection, Hs. }
  apply H. split; [cbn; lia | constructor].
Qed.

(** X18.  From the start of the application, every image of the collection
    shows the Cropped badge exactly when its history is not empty, and
    exactly when a crop is remembered for it. *)
Theorem badge_history_lastCrop_agree (actions : list Action) (img : ImageData.t) :
  In img (images (play initialState actions)) ->
  (ImageData.cropped img = true <-> ImageData.cropHistory img <> [])
  /\ (ImageData.cropped img = true <-> ImageData.lastCrop img <> None).
Proof.
  assert (H : forall s,
             (List.length (images s) <= 10)%nat /\ Forall consistent (images s) ->
             Forall consistent (images (play s actions))).
  { induction actions as [| a rest IH]; intros s Hs; [apply Hs |].
    unfold play in *. cbn [fold_left]. apply IH, act_keeps_collection, Hs. }
  intros Hin.
  assert (Hall : Forall consistent (images (play initialState actions))).
  { apply H. split; [cbn; lia | constructor]. }
  rewrite Forall_forall in Hall. exact (Hall img Hin).
Qed.

Lemma badge_history_lastCrop_agree_witness :
  let img :=
    ImageData.mk "id-a" photo "blob:a" "photo.png" 2048 true
      [CropInfo.mk "crop-1" (1000, 1000 / (16 # 9)) 1700000000]
      (Some (Area.mk 0 0 1000 (1000 / (16 # 9)))) in
  In img (images (play initialState
                       (map Ev widescreen
                        ++ [Ev (CropSave true true "crop-1" 1700000000)])))
  /\ (ImageData.cropped img = true <-> ImageData.cropHistory img <> []).
Proof.
  cbv zeta.
  assert (Hin : In (ImageData.mk "id-a" photo "blob:a" "photo.png" 2048 true
                      [CropInfo.mk "crop-1" (1000, 1000 / (16 # 9)) 1700000000]
                      (Some (Area.mk 0 0 1000 (1000 / (16 # 9)))))
                   (images (play initialState
                              (map Ev widescreen
                               ++ [Ev (CropSave true true "crop-1" 1700000000)]))))
    by (vm_compute; left; reflexivity).
  split; [exact Hin |].
  exact (proj1 (badge_history_lastCrop_agree _ _ Hin)).
Defined.

(** ** Edits under a lock that stay valid *)

(** X19.  Under a lock that resolves to the positive ratio [r], an edit of
    the width or of the height leaves a rectangle within all five
    invariants as soon as both the value typed and the dimension derived
    from it lie between the minimum of 10 and the image size, wherever the
    rectangle was before. *)
Theorem locked_edit_in_range_is_valid (s : AppState) (p : Property) (v r : Q) :
  (0 < aspectRatio s /\ r = aspectRatio s)
  \/ (aspectRatio s == AspectRatios.ORIGINAL
      /\ 0 < Dim.width (originalDimensions s)
      /\ 0 < Dim.height (originalDimensions s)
      /\ r = Dim.width (originalDimensions s) / Dim.height (originalDimensions s)) ->
  (p = PWidth
   /\ 10 <= v <= Dim.width (originalDimensions s)
   /\ 10 <= v / r <= Dim.height (originalDimensions s))
  \/ (p = PHeight
      /\ 10 <= v <= Dim.height (originalDimensions s)
      /\ 10 <= v * r <= Dim.width (originalDimensions s)) ->
  rectangle_invariants 10 (cropArea (handleCropAreaChange s p v))
                       (originalDimensions s) = true.
Proof.
  intros Hlock Hrange.
  rewrite (handleCropAreaChange_locked s p v r) by tauto.
  apply rectangle_invariants_true.
  match goal with
  | |- context [keepWithinBounds ?a ?b] =>
      destruct (keepWithinBounds_size a b) as [Hw Hh];
      destruct (keepWithinBounds_edges a b) as (Hr & Hb & Hx & Hy)
  end.
  rewrite Hw, Hh in *.
  destruct (cropArea s) as [x y w h].
  destruct Hrange as [(-> & Hv & Hd) | (-> & Hv & Hd)];
    cbn [assign deriveOther] in *; fields;
    (split; [lra |]); (split; [lra |]);
    (split; [apply Hx; lra |]); (split; [apply Hy; lra |]);
    split; assumption.
Qed.

Lemma locked_edit_in_range_is_valid_witness :
  let s := run initialState (editing_photo ++ [AspectRatioChange 1]) in
  0 < aspectRatio s
  /\ rectangle_invariants 10 (cropArea (handleCropAreaChange s PWidth 600))
                          (originalDimensions s) = true.
Proof.
  cbv zeta.
  assert (Hpos : 0 < aspectRatio (run initialState
                                      (editing_photo ++ [AspectRatioChange 1])))
    by (vm_compute; reflexivity).
  split; [exact Hpos |].
  apply (locked_edit_in_range_is_valid
           (run initialState (editing_photo ++ [AspectRatioChange 1]))
           PWidth 600 _ (or_introl (conj Hpos eq_refl))).
  left. vm_compute. repeat split; discriminate.
Defined.
